(** * TaHoma device entity: [custom_components/tahoma/tahoma_device.py]

    A shallow embedding of the [TahomaDevice] entity class: the accessors
    over the device snapshot kept by the data update coordinator, the
    device-registry information, and the asynchronous execute / cancel
    protocol against the hub client. *)

From Stdlib Require Import ZArith.
From stdpp Require Import base option list gmap strings.

Local Open Scope string_scope.
Local Open Scope list_scope.

(** ** Python values and exceptions *)

(** The dynamically typed scalars carried by states and attributes. *)
Inductive PyVal : Type :=
  | VNone
  | VBool (b : bool)
  | VInt (n : Z)
  | VStr (s : string).

(** [v is not None] *)
Definition is_not_None (v : PyVal) : bool :=
  match v with VNone => false | _ => true end.

(** Python truth value of a scalar, as tested by [or]. *)
Definition truthy (v : PyVal) : bool :=
  match v with
  | VNone => false
  | VBool b => b
  | VInt n => negb (n =? 0)%Z
  | VStr s => negb (String.eqb s "")
  end.

(** [a or b] *)
Definition py_or (a b : PyVal) : PyVal := if truthy a then a else b.

(** [for x in xs: acc = f acc x] under the guard [if xs:], for [xs] a list
    or [None]: the guard holds for a non-empty list only. *)
Definition for_each {A X} (xs : option (list A)) (f : X -> A -> X) (acc : X) : X :=
  match xs with
  | Some ((_ :: _) as l) => foldl f acc l
  | _ => acc
  end.

(** [next(it, default)] on a generator that is run from its start. *)
Definition next {A} (it : list A) (default : A) : A :=
  match it with
  | x :: _ => x
  | [] => default
  end.

(** [sub in s] on strings: [sub] occurs at some position of [s]. *)
Fixpoint str_contains (sub s : string) : bool :=
  String.prefix sub s ||
  match s with
  | EmptyString => false
  | String _ s' => str_contains sub s'
  end.

(** [s.split(sep)] for a separator of one character. *)
Fixpoint str_split (sep : Ascii.ascii) (s : string) : list string :=
  match s with
  | EmptyString => [EmptyString]
  | String c s' =>
      if Ascii.eqb c sep then EmptyString :: str_split sep s'
      else match str_split sep s' with
           | hd :: tl => String c hd :: tl
           | [] => [String c EmptyString]
           end
  end.

(** The character [#]. *)
Definition hash : Ascii.ascii := Ascii.Ascii true true false false false true false false.

(** The instances of [Exception] that this module meets. *)
Inductive Exception : Type :=
  | KeyError (key : string)
  | ValueError (msg : string)
  | ClientError (msg : string).

Inductive result (A : Type) : Type :=
  | Ok (a : A)
  | Raise (e : Exception).
Arguments Ok {A} a.
Arguments Raise {A} e.

(** ** [pyhoma.models] *)

Module State.
(** Modelled from the spec: pyhoma's [State], a (name, value) pair; the
    static attributes of a device have the same shape. *)
Record t : Type := Build { name : string; value : PyVal }.
End State.

Module Command.
(** Modelled from the spec: pyhoma's [Command], a name plus an ordered
    argument list. *)
Record t : Type := Build { name : string; parameters : list PyVal }.
End Command.

Module Definition_.
(** Modelled from the spec: pyhoma's device [Definition]; [commands] is
    the capability set, tested with [in] by command name. *)
Record t : Type := Build { commands : gset string }.
End Definition_.

Module Device.
(** Modelled from the spec: pyhoma's [Device], the snapshot of one
    device. [attributes] and [states] are a list or [None]. *)
Record t : Type := Build {
  deviceurl : string;
  label : string;
  ui_class : string;
  widget : string;
  controllable_name : string;
  definition : Definition_.t;
  attributes : option (list State.t);
  states : option (list State.t);
  available : bool;
}.
End Device.

(** ** The shared objects an entity holds references to *)

(** The value stored in [coordinator.executions] under an execution id:
    the dict [{"deviceurl": ..., "command_name": ...}]. *)
Record Execution : Type := {
  exec_deviceurl : string;
  exec_command_name : string;
}.

(** [TahomaDataUpdateCoordinator]: the snapshot store [data], the tracking
    table [executions] and the hub [client], whose state is of type
    [Client]. *)
Record Coordinator (Client : Type) : Type := {
  data : gmap string Device.t;
  executions : gmap string Execution;
  client : Client;
}.
Arguments data {Client} _.
Arguments executions {Client} _.
Arguments client {Client} _.

(** One entry of the host's entity registry. *)
Module RegistryEntry.
Record t : Type := Build {
  unique_id : string;
  original_name : option string;
}.
End RegistryEntry.

(** The entity registry: [entities] is a dict from entity id to entry,
    iterated in insertion order. *)
Record EntityRegistry : Type := {
  entities : list (string * RegistryEntry.t);
}.

(** [hass]: of its [data] dict only registry-valued keys are read here. *)
Record HomeAssistant : Type := {
  hass_data : gmap string EntityRegistry;
}.

(** The calls made on the external collaborators, in the order they are
    awaited. *)
Inductive Call : Type :=
  | CallExecuteCommand (url : string) (c : Command.t) (originator : string)
  | CallCancelCommand (exec_id : string)
  | CallAsyncRefresh.

(** Everything an entity method can read or change: the coordinator, the
    host, the records written through [_LOGGER.error], and the history of
    collaborator calls. *)
Record World (Client : Type) : Type := {
  coordinator : Coordinator Client;
  hass : HomeAssistant;
  _LOGGER : list Exception;
  awaited : list Call;
}.
Arguments coordinator {Client} _.
Arguments hass {Client} _.
Arguments _LOGGER {Client} _.
Arguments awaited {Client} _.

(** The hub client, consumed through two operations; each may raise and
    may change the client's own state. *)
Class TahomaClient (Client : Type) : Type := {
  execute_command :
    string -> Command.t -> string -> Client -> result string * Client;
  cancel_command : string -> Client -> result unit * Client;
}.

(** The coordinator's forced refresh: it may replace the snapshot store,
    touch the tracking table and talk to the hub. *)
Class DataUpdateCoordinator (Client : Type) : Type := {
  async_refresh : Coordinator Client -> result unit * Coordinator Client;
}.

(** ** Monads for accessors and for coroutines *)

(** A property or method that only reads the world and may raise. *)
Definition Get (W A : Type) : Type := W -> result A.

Definition ret {W A} (a : A) : Get W A := fun _ => Ok a.

Definition bind {W A B} (m : Get W A) (k : A -> Get W B) : Get W B :=
  fun w => match m w with
           | Ok a => k a w
           | Raise e => Raise e
           end.

Definition raise {W A} (e : Exception) : Get W A := fun _ => Raise e.

(** A coroutine: it may change the world, and returns or raises. *)
Definition Async (W A : Type) : Type := W -> result A * W.

Definition abind {W A B} (m : Async W A) (k : A -> Async W B) : Async W B :=
  fun w => match m w with
           | (Ok a, w') => k a w'
           | (Raise e, w') => (Raise e, w')
           end.

Definition lift {W A} (m : Get W A) : Async W A := fun w => (m w, w).

(** [try: body / except Exception as e: handler e; return / (rest)]:
    the handler's result ends the method, the body's value goes on. *)
Definition try_except_return {W A B}
    (body : Async W A) (handler : Exception -> Async W B)
    (rest : A -> Async W B) : Async W B :=
  fun w => match body w with
           | (Ok a, w') => rest a w'
           | (Raise e, w') => handler e w'
           end.

Declare Scope py_scope.
Delimit Scope py_scope with py.
Notation "'let!' x ':=' m 'in' k" := (bind m (fun x => k))
  (at level 10, x name, m at level 200, k at level 200) : py_scope.
Notation "'await' x ':=' m 'in' k" := (abind m (fun x => k))
  (at level 10, x name, m at level 200, k at level 200) : py_scope.
Local Open Scope py_scope.

(** ** Module constants *)

Definition ATTR_RSSI_LEVEL : string := "rssi_level".
Definition CORE_MANUFACTURER_NAME_STATE : string := "core:ManufacturerNameState".
Definition CORE_MODEL_STATE : string := "core:ModelState".
Definition CORE_RSSI_LEVEL_STATE : string := "core:RSSILevelState".

(** ** [class TahomaDevice] *)

(** The entity's own field; [self.coordinator] and [self.hass] are
    references to the shared objects of the world. *)
Record TahomaDevice : Type := {
  device_url : string;
}.

(** The dict returned by [device_info], one field per literal key. *)
Record DeviceInfo : Type := {
  identifiers : gset (string * string);
  info_manufacturer : PyVal;
  info_name : option string;
  info_model : PyVal;
  info_sw_version : string;
}.

Section Entity.
Context {Client : Type}.
Implicit Types (self : TahomaDevice) (w : World Client).

(** [self.coordinator.data[self.device_url]]. The accessors below are
    synchronous: all reads of [self.device] within one of them see the
    same store, so a repeated read is bound once. *)
Definition device self : Get (World Client) Device.t :=
  fun w => match data (coordinator w) !! device_url self with
           | Some d => Ok d
           | None => Raise (KeyError (device_url self))
           end.

Definition name self : Get (World Client) string :=
  let! d := device self in ret (Device.label d).

Definition available self : Get (World Client) bool :=
  let! d := device self in ret (Device.available d).

Definition unique_id self : Get (World Client) string :=
  let! d := device self in ret (Device.deviceurl d).

Definition assumed_state self : Get (World Client) bool :=
  let! d := device self in
  ret (match Device.states d with
       | None => true
       | Some l => Nat.eqb (length l) 0
       end).

Definition select_command self (commands : list string)
    : Get (World Client) (option string) :=
  let! d := device self in
  let existing_commands := Definition_.commands (Device.definition d) in
  ret (next (Some <$> filter (fun c => c ∈ existing_commands) commands) None).

Definition has_command self (commands : list string)
    : Get (World Client) bool :=
  let! c := select_command self commands in ret (bool_decide (c <> None)).

Definition select_state self (states : list string)
    : Get (World Client) PyVal :=
  let! d := device self in
  match Device.states d with
  | Some ((_ :: _) as device_states) =>
      ret (next
             (State.value <$>
                filter (fun state => State.name state ∈ states) device_states)
             VNone)
  | _ => ret VNone
  end.

Definition has_state self (states : list string)
    : Get (World Client) bool :=
  let! v := select_state self states in ret (is_not_None v).

Definition device_state_attributes self
    : Get (World Client) (gmap string PyVal) :=
  let! d := device self in
  let attr : gmap string PyVal :=
    <["controllable_name" := VStr (Device.controllable_name d)]>
      (<["widget" := VStr (Device.widget d)]>
         (<["ui_class" := VStr (Device.ui_class d)]> ∅)) in
  let! rssi := has_state self [CORE_RSSI_LEVEL_STATE] in
  let! attr :=
    (if rssi then
       let! v := select_state self [CORE_RSSI_LEVEL_STATE] in
       ret (<[ATTR_RSSI_LEVEL := v]> attr)
     else ret attr) in
  let attr :=
    for_each (Device.attributes d)
      (fun attr attribute =>
         <[State.name attribute := State.value attribute]> attr)
      attr in
  let attr :=
    for_each (Device.states d)
      (fun attr state =>
         if str_contains "State" (State.name state)
         then <[State.name state := State.value state]> attr
         else attr)
      attr in
  ret attr.

(** [DOMAIN], imported from the integration's constants. *)
Variable DOMAIN : string.

(** [self.hass.data[key]] *)
Definition hass_data_get (key : string) : Get (World Client) EntityRegistry :=
  fun w => match hass_data (hass w) !! key with
           | Some r => Ok r
           | None => Raise (KeyError key)
           end.

(** [a, _ = parts]: exactly two values unpack. *)
Definition unpack_first_of_two (parts : list string)
    : Get (World Client) string :=
  match parts with
  | [a; _] => ret a
  | [] => raise (ValueError "not enough values to unpack (expected 2, got 0)")
  | [_] => raise (ValueError "not enough values to unpack (expected 2, got 1)")
  | _ => raise (ValueError "too many values to unpack (expected 2)")
  end.

Definition device_info self : Get (World Client) DeviceInfo :=
  let! m := select_state self [CORE_MANUFACTURER_NAME_STATE] in
  let manufacturer := py_or m (VStr "Somfy") in
  let! mo := select_state self [CORE_MODEL_STATE] in
  let! d := device self in
  let model := py_or mo (VStr (Device.widget d)) in
  let! label := name self in
  let! named :=
    (if str_contains "#" (device_url self) then
       let! d' := device self in
       let! base := unpack_first_of_two (str_split hash (Device.deviceurl d')) in
       let! entity_registry := hass_data_get "entity_registry" in
       ret (base,
            next
              (RegistryEntry.original_name ∘ snd <$>
                 filter (fun item =>
                           RegistryEntry.unique_id (snd item) = base +:+ "#1")
                        (entities entity_registry))
              None)
     else ret (device_url self, Some label)) in
  let! d'' := device self in
  ret {| identifiers := {[ (DOMAIN, fst named) ]};
         info_manufacturer := manufacturer;
         info_name := snd named;
         info_model := model;
         info_sw_version := Device.controllable_name d'' |}.

(** *** Coroutines *)

Context {hub : TahomaClient Client} {scheduler : DataUpdateCoordinator Client}.

(** [_LOGGER.error(exception)] *)
Definition logger_error (exception : Exception) : Async (World Client) unit :=
  fun w => (Ok tt,
            {| coordinator := coordinator w; hass := hass w;
               _LOGGER := _LOGGER w ++ [exception];
               awaited := awaited w |}).

(** Await a call on [self.coordinator.client] and keep the client's new
    state. One request is followed on its own: while it is suspended on
    the client, the snapshot store and the tracking table stay as they
    are. *)
Definition on_client {A} (call : Call)
    (op : Client -> result A * Client) : Async (World Client) A :=
  fun w =>
    let '(r, c) := op (client (coordinator w)) in
    (r, {| coordinator := {| data := data (coordinator w);
                             executions := executions (coordinator w);
                             client := c |};
           hass := hass w; _LOGGER := _LOGGER w;
           awaited := awaited w ++ [call] |}).

(** [await self.coordinator.async_refresh()] *)
Definition coordinator_async_refresh : Async (World Client) unit :=
  fun w =>
    let '(r, co) := async_refresh (coordinator w) in
    (r, {| coordinator := co; hass := hass w; _LOGGER := _LOGGER w;
           awaited := awaited w ++ [CallAsyncRefresh] |}).

(** [self.coordinator.executions[exec_id] = entry] *)
Definition executions_setitem (exec_id : string) (entry : Execution)
    : Async (World Client) unit :=
  fun w =>
    (Ok tt,
     {| coordinator := {| data := data (coordinator w);
                          executions := <[exec_id := entry]> (executions (coordinator w));
                          client := client (coordinator w) |};
        hass := hass w; _LOGGER := _LOGGER w; awaited := awaited w |}).

Definition async_execute_command self (command_name : string)
    (args : list PyVal) : Async (World Client) unit :=
  try_except_return
    (await d := lift (device self) in
     let command := Command.Build command_name args in
     on_client
       (CallExecuteCommand (Device.deviceurl d) command "Home Assistant")
       (execute_command (Device.deviceurl d) command "Home Assistant"))
    (fun exception => logger_error exception)
    (fun exec_id =>
       await d := lift (device self) in
       await _u := executions_setitem exec_id
                     {| exec_deviceurl := Device.deviceurl d;
                        exec_command_name := command_name |} in
       coordinator_async_refresh).

Definition async_cancel_command self (exec_id : string)
    : Async (World Client) unit :=
  on_client (CallCancelCommand exec_id) (cancel_command exec_id).
End Entity.

(** ** Reference definitions, in the words of the specification *)

(** The substring of [s] before the first [sep]; all of [s] when it has
    none. *)
Fixpoint str_before (sep : Ascii.ascii) (s : string) : string :=
  match s with
  | EmptyString => EmptyString
  | String c s' =>
      if Ascii.eqb c sep then EmptyString else String c (str_before sep s')
  end.

(** The number of occurrences of [sep] in [s]. *)
Fixpoint str_count (sep : Ascii.ascii) (s : string) : nat :=
  match s with
  | EmptyString => 0
  | String c s' => (if Ascii.eqb c sep then 1 else 0) + str_count sep s'
  end.

(** The value written last under key [k] by a merge of the entries [l]. *)
Definition last_write (k : string) (l : list State.t) : option PyVal :=
  State.value <$> last (filter (fun s => State.name s = k) l).

(** The three fields every attribute mapping starts from. *)
Definition base_fields (d : Device.t) (k : string) : option PyVal :=
  if decide (k = "controllable_name") then Some (VStr (Device.controllable_name d))
  else if decide (k = "widget") then Some (VStr (Device.widget d))
  else if decide (k = "ui_class") then Some (VStr (Device.ui_class d))
  else None.

(** The RSSI entry: present exactly when the first state named
    [core:RSSILevelState] has a value other than [None]. *)
Definition rssi_entry (d : Device.t) (k : string) : option PyVal :=
  match filter (fun s => State.name s = CORE_RSSI_LEVEL_STATE)
               (default [] (Device.states d)) with
  | s :: _ =>
      if decide (k = ATTR_RSSI_LEVEL) then
        (if is_not_None (State.value s) then Some (State.value s) else None)
      else None
  | [] => None
  end.

(** What the stated merge order gives under key [k]: a matching state
    beats a static attribute, which beats the RSSI entry, which beats the
    ui/widget/controllable fields; within one list the last entry wins. *)
Definition merged_attribute (d : Device.t) (k : string) : option PyVal :=
  match last_write k (filter (fun s => str_contains "State" (State.name s) = true)
                             (default [] (Device.states d))) with
  | Some v => Some v
  | None =>
      match last_write k (default [] (Device.attributes d)) with
      | Some v => Some v
      | None =>
          match rssi_entry d k with
          | Some v => Some v
          | None => base_fields d k
          end
      end
  end.

(** ** Sample worlds *)

Module Sample.
Definition url : string := "io://1234-5678-9012/12345".
Definition sub_url : string := "io://1234-5678-9012/12345#1".

Definition device_at (u : string) (states : option (list State.t)) : Device.t :=
  {| Device.deviceurl := u;
     Device.label := "Bedroom";
     Device.ui_class := "Shutter";
     Device.widget := "UpDownExteriorBlind";
     Device.controllable_name := "io:ExteriorVenetianBlindIOComponent";
     Device.definition := Definition_.Build {[ "open"; "close" ]};
     Device.attributes := Some [State.Build "manufacturer" (VStr "X")];
     Device.states := states;
     Device.available := true |}.

Definition registry : EntityRegistry :=
  {| entities :=
       [("cover.bedroom",
         RegistryEntry.Build sub_url (Some "Bedroom thermostat"))] |}.

(** A world whose store holds [d] under [d]'s own identity; the hub
    client's state counts the submissions it has seen. [bare_world_of]
    is the same world on a host with no entity registry loaded. *)
Definition world_of (d : Device.t) : World nat :=
  {| coordinator := {| data := {[ Device.deviceurl d := d ]};
                       executions := ∅;
                       client := 0 |};
     hass := {| hass_data := {[ "entity_registry" := registry ]} |};
     _LOGGER := [];
     awaited := [] |}.

Definition bare_world_of (d : Device.t) : World nat :=
  {| coordinator := coordinator (world_of d);
     hass := {| hass_data := ∅ |};
     _LOGGER := [];
     awaited := [] |}.

(** A world whose store is empty (the device was deregistered) and whose
    host has no entity registry loaded. *)
Definition empty_world : World nat :=
  {| coordinator := {| data := ∅; executions := ∅; client := 0 |};
     hass := {| hass_data := ∅ |};
     _LOGGER := [];
     awaited := [] |}.

Definition entity : TahomaDevice := {| device_url := url |}.

(** State [B] is stored before state [A]. *)
Definition states_BA : list State.t :=
  [State.Build "core:B" (VStr "b"); State.Build "core:A" (VStr "a")].

(** A state that is present but carries [None]. *)
Definition states_none : list State.t :=
  [State.Build "core:A" VNone; State.Build "core:A" (VStr "a")].

Definition closure : list State.t :=
  [State.Build "core:ClosureState" (VStr "50")].

Definition world_BA : World nat := world_of (device_at url (Some states_BA)).
Definition world_none : World nat := world_of (device_at url (Some states_none)).
Definition world_shutter : World nat := world_of (device_at url (Some closure)).
Definition world_bare : World nat := world_of (device_at url None).
Definition world_sub : World nat := world_of (device_at sub_url None).

(** A hub client that accepts every submission under the id [E1]. *)
Definition accepting : TahomaClient nat :=
  {| execute_command := fun _ _ _ n => (Ok "E1", S n);
     cancel_command := fun _ n => (Ok tt, n) |}.

(** A hub client that rejects every request. *)
Definition rejecting : TahomaClient nat :=
  {| execute_command := fun _ _ _ n => (Raise (ClientError "rejected"), S n);
     cancel_command := fun _ n => (Raise (ClientError "unknown execution"), n) |}.

(** A refresh that leaves the coordinator as it is. *)
Definition idle : DataUpdateCoordinator nat :=
  {| async_refresh := fun co => (Ok tt, co) |}.

(** A refresh that fails. *)
Definition failing : DataUpdateCoordinator nat :=
  {| async_refresh := fun co => (Raise (ClientError "refresh failed"), co) |}.

(** A second sub-device of the housing of [sub_url]. *)
Definition sibling_url : string := "io://1234-5678-9012/12345#2".

(** Both sub-devices in one store, with the registry loaded. *)
Definition world_siblings : World nat :=
  {| coordinator := {| data := {[ sub_url := device_at sub_url None;
                                  sibling_url := device_at sibling_url None ]};
                       executions := ∅;
                       client := 0 |};
     hass := {| hass_data := {[ "entity_registry" := registry ]} |};
     _LOGGER := [];
     awaited := [] |}.

(** A store in which the snapshot kept under [sub_url] carries the url
    without its suffix. *)
Definition world_mismatch : World nat :=
  {| coordinator := {| data := {[ sub_url := device_at url None ]};
                       executions := ∅;
                       client := 0 |};
     hass := {| hass_data := {[ "entity_registry" := registry ]} |};
     _LOGGER := [];
     awaited := [] |}.

(** A manufacturer state with an empty value and a model state. *)
Definition states_maker : list State.t :=
  [State.Build "core:ManufacturerNameState" (VStr "");
   State.Build "core:ModelState" (VStr "Oximo")].

Definition world_maker : World nat := world_of (device_at url (Some states_maker)).

(** An RSSI state, a closure state and a state whose name lacks [State]. *)
Definition states_rssi : list State.t :=
  [State.Build "core:RSSILevelState" (VInt 72);
   State.Build "core:ClosureState" (VInt 50);
   State.Build "io:PriorityLockTimer" (VInt 0)].

Definition world_rssi : World nat := world_of (device_at url (Some states_rssi)).

(** A world whose tracking table already has entries under [E0] and [E1]. *)
Definition world_tracking : World nat :=
  {| coordinator :=
       {| data := {[ url := device_at url None ]};
          executions :=
            {[ "E0" := {| exec_deviceurl := sub_url; exec_command_name := "open" |};
               "E1" := {| exec_deviceurl := sub_url; exec_command_name := "stop" |} ]};
          client := 0 |};
     hass := {| hass_data := ∅ |};
     _LOGGER := [];
     awaited := [] |}.
End Sample.

(** * Properties *)

(** ** Lists and generators *)

Section Generators.
Context {A B : Type} (P : A -> Prop) `{!forall x, Decision (P x)}.

Lemma filter_no_match (l : list A) :
  (forall x, x ∈ l -> ~ P x) -> filter P l = [].
Proof.
  induction l as [|a l IH]; intros Hl; [done|].
  rewrite filter_cons_False; [|apply Hl; left].
  apply IH. intros x Hx. apply Hl. by right.
Qed.

Lemma next_first_match (f : A -> B) (pre post : list A) (s : A) (dflt : B) :
  P s -> (forall x, x ∈ pre -> ~ P x) ->
  next (f <$> filter P (pre ++ s :: post)) dflt = f s.
Proof.
  intros Hs Hpre.
  rewrite filter_app, (filter_no_match pre Hpre), filter_cons_True by done.
  reflexivity.
Qed.

Lemma next_no_match (f : A -> B) (l : list A) (dflt : B) :
  (forall x, x ∈ l -> ~ P x) -> next (f <$> filter P l) dflt = dflt.
Proof. intros Hl. by rewrite (filter_no_match l Hl). Qed.

(** Every list either has a first element satisfying [P] or has none. *)
Lemma first_match_or_none (l : list A) :
  (exists pre s post, l = pre ++ s :: post /\ P s /\ forall x, x ∈ pre -> ~ P x)
  \/ (forall x, x ∈ l -> ~ P x).
Proof.
  induction l as [|a l IH].
  - right. intros x Hx. by apply elem_of_nil in Hx.
  - destruct (decide (P a)) as [Ha|Ha].
    + left. exists [], a, l. split_and!; [done|done|].
      intros x Hx. by apply elem_of_nil in Hx.
    + destruct IH as [(pre & s & post & -> & Hs & Hpre)|Hnone].
      * left. exists (a :: pre), s, post. split_and!; [done|done|].
        intros x [->|Hx]%elem_of_cons; auto.
      * right. intros x [->|Hx]%elem_of_cons; auto.
Qed.
End Generators.

(** ** Accessors over the snapshot *)

Section Accessors.
Context {Client : Type}.
Implicit Types (self : TahomaDevice) (w : World Client) (d : Device.t).

Lemma device_stored self w d :
  data (coordinator w) !! device_url self = Some d -> device self w = Ok d.
Proof. intros H. unfold device. by rewrite H. Qed.

Lemma device_missing self w :
  data (coordinator w) !! device_url self = None ->
  device self w = Raise (KeyError (device_url self)).
Proof. intros H. unfold device. by rewrite H. Qed.

Lemma select_state_stored self w d (C : list string) :
  data (coordinator w) !! device_url self = Some d ->
  select_state self C w =
    Ok (next (State.value <$>
                filter (fun s => State.name s ∈ C) (default [] (Device.states d)))
             VNone).
Proof.
  intros Hd%device_stored. unfold select_state, bind, ret. rewrite Hd.
  destruct (Device.states d) as [[|s l]|]; reflexivity.
Qed.

Lemma select_state_scan self w d (C : list string) :
  data (coordinator w) !! device_url self = Some d ->
  (forall pre s post,
      Device.states d = Some (pre ++ s :: post) ->
      State.name s ∈ C ->
      (forall x, x ∈ pre -> State.name x ∉ C) ->
      select_state self C w = Ok (State.value s))
  /\ ((forall L x, Device.states d = Some L -> x ∈ L -> State.name x ∉ C) ->
      select_state self C w = Ok VNone).
Proof.
  intros Hd. rewrite (select_state_stored self w d C Hd). split.
  - intros pre s post -> Hs Hpre. simpl.
    by rewrite (next_first_match (fun s => State.name s ∈ C)).
  - intros Hnone. destruct (Device.states d) as [L|]; [|done]. simpl.
    rewrite (next_no_match (fun s => State.name s ∈ C)); [done|].
    intros x Hx. by apply (Hnone L).
Qed.

(** C1: [select_state] scans the state list in stored order and returns
    the value of the first entry whose name is among the candidates
    (so a state stored earlier wins over one listed earlier); it returns
    [None] when no entry's name is a candidate, and in particular when
    the state list is empty or absent. Every state list is in one of
    these two cases. *)
Theorem select_state_first_in_stored_order self w d (C : list string) :
  data (coordinator w) !! device_url self = Some d ->
  (forall pre s post,
      Device.states d = Some (pre ++ s :: post) ->
      State.name s ∈ C ->
      (forall x, x ∈ pre -> State.name x ∉ C) ->
      select_state self C w = Ok (State.value s))
  /\ ((forall L x, Device.states d = Some L -> x ∈ L -> State.name x ∉ C) ->
      select_state self C w = Ok VNone)
  /\ (Device.states d = None \/ Device.states d = Some [] ->
      select_state self C w = Ok VNone)
  /\ ((exists pre s post,
         Device.states d = Some (pre ++ s :: post)
         /\ State.name s ∈ C
         /\ forall x, x ∈ pre -> State.name x ∉ C)
      \/ (forall L x, Device.states d = Some L -> x ∈ L -> State.name x ∉ C)).
Proof.
  intros Hd.
  destruct (select_state_scan self w d C Hd) as [Hfirst Hnone].
  split_and!; [exact Hfirst|exact Hnone| |].
  - intros Hstates. apply Hnone. intros L x HL Hx.
    destruct Hstates as [Hs|Hs]; rewrite Hs in HL; [done|].
    injection HL as <-. by apply elem_of_nil in Hx.
  - destruct (Device.states d) as [L|]; [|by right].
    destruct (first_match_or_none (fun s => State.name s ∈ C) L)
      as [(pre & s & post & -> & Hs & Hpre)|Hno].
    + left. by exists pre, s, post.
    + right. by intros L' x [= <-] Hx%Hno.
Qed.

Lemma has_state_of_select self w (C : list string) (v : PyVal) :
  select_state self C w = Ok v -> has_state self C w = Ok (is_not_None v).
Proof. intros H. unfold has_state, bind, ret. by rewrite H. Qed.

(** C10: when the first entry whose name is a candidate carries [None]
    (an entry named by a candidate has value [None] and every earlier
    matching entry has value [None] too), [select_state] returns [None]
    and [has_state] returns [False], exactly as for a device none of
    whose states is named by a candidate, although such a state is in
    the list. *)
Theorem select_state_present_with_none self w d (C : list string) pre e post :
  data (coordinator w) !! device_url self = Some d ->
  Device.states d = Some (pre ++ e :: post) ->
  State.name e ∈ C ->
  State.value e = VNone ->
  (forall s, s ∈ pre -> State.name s ∈ C -> State.value s = VNone) ->
  select_state self C w = Ok VNone
  /\ has_state self C w = Ok false
  /\ (forall (w' : World Client) d',
        data (coordinator w') !! device_url self = Some d' ->
        (forall L x, Device.states d' = Some L -> x ∈ L -> State.name x ∉ C) ->
        select_state self C w = select_state self C w'
        /\ has_state self C w = has_state self C w').
Proof.
  intros Hd HL He Hv Hpre.
  assert (Hsel : select_state self C w = Ok VNone).
  { destruct (select_state_scan self w d C Hd) as [Hfirst _].
    destruct (first_match_or_none (fun s => State.name s ∈ C) pre)
      as [(p0 & s0 & q0 & -> & Hs0 & Hp0)|Hnone].
    - rewrite <- (Hpre s0); [|set_solver|done].
      apply (Hfirst p0 s0 (q0 ++ e :: post)); [|done|done].
      by rewrite HL, <- app_assoc.
    - rewrite <- Hv. by apply (Hfirst pre e post). }
  assert (Hhas : has_state self C w = Ok false).
  { by rewrite (has_state_of_select self w C VNone Hsel). }
  split_and!; [done|done|].
  intros w' d' Hd' Hnone.
  destruct (select_state_scan self w' d' C Hd') as [_ Habsent].
  specialize (Habsent Hnone).
  rewrite Hsel, Hhas, Habsent, (has_state_of_select self w' C VNone Habsent).
  done.
Qed.

(** C9: [assumed_state] is true if and only if the snapshot's state list
    is empty or absent, and false otherwise. *)
Theorem assumed_state_iff_no_states self w d :
  data (coordinator w) !! device_url self = Some d ->
  exists b, assumed_state self w = Ok b
            /\ (b = true <-> Device.states d = None \/ Device.states d = Some []).
Proof.
  intros Hd%device_stored. unfold assumed_state, bind, ret. rewrite Hd.
  eexists. split; [reflexivity|].
  destruct (Device.states d) as [[|s l]|]; simpl.
  - split; [by right|done].
  - split; [done|by intros [?|?]].
  - split; [by left|done].
Qed.

(** C6: [select_command] returns the first name of the candidate list,
    in the caller's order, that is in the capability set, and [None]
    when no candidate is; with capabilities [{open, close}] and
    candidates [toggle, close, open] it returns [close]. *)
Theorem select_command_first_supported self w d (commands : list string) :
  data (coordinator w) !! device_url self = Some d ->
  let capabilities := Definition_.commands (Device.definition d) in
  (forall pre c post,
      commands = pre ++ c :: post ->
      c ∈ capabilities ->
      (forall x, x ∈ pre -> x ∉ capabilities) ->
      select_command self commands w = Ok (Some c))
  /\ ((forall x, x ∈ commands -> x ∉ capabilities) ->
      select_command self commands w = Ok None)
  /\ (capabilities = {[ "open"; "close" ]} ->
      select_command self ["toggle"; "close"; "open"] w = Ok (Some "close")).
Proof.
  intros Hd%device_stored capabilities.
  assert (Hfirst : forall cs pre c post,
             cs = pre ++ c :: post -> c ∈ capabilities ->
             (forall x, x ∈ pre -> x ∉ capabilities) ->
             select_command self cs w = Ok (Some c)).
  { intros cs pre c post -> Hc Hpre. unfold select_command, bind, ret.
    rewrite Hd. fold capabilities.
    by rewrite (next_first_match (fun c => c ∈ capabilities)). }
  split_and!.
  - apply Hfirst.
  - intros Hnone. unfold select_command, bind, ret. rewrite Hd.
    fold capabilities.
    by rewrite (next_no_match (fun c => c ∈ capabilities)).
  - intros Hcaps. apply (Hfirst _ ["toggle"] "close" ["open"]); [done| |].
    + rewrite Hcaps. apply elem_of_union_r. by apply elem_of_singleton.
    + intros x ->%list_elem_of_singleton. rewrite Hcaps.
      intros [Hin|Hin]%elem_of_union; apply elem_of_singleton in Hin;
        discriminate Hin.
Qed.

(** *** The attribute mapping *)

Lemma foldl_insert_lookup (l : list State.t) (m : gmap string PyVal) (k : string) :
  foldl (fun attr a => <[State.name a := State.value a]> attr) m l !! k =
    match last_write k l with
    | Some v => Some v
    | None => m !! k
    end.
Proof.
  revert m. induction l as [|a l IH]; intros m; [done|].
  simpl. rewrite IH. unfold last_write.
  destruct (decide (State.name a = k)) as [Heq|Hne].
  - rewrite filter_cons_True, last_cons by done.
    destruct (last (filter _ l)); simpl; [done|].
    by rewrite <- Heq, lookup_insert_eq.
  - rewrite filter_cons_False by done.
    destruct (last (filter _ l)); simpl; [done|].
    by rewrite lookup_insert_ne.
Qed.

Lemma foldl_insert_if (l : list State.t) (m : gmap string PyVal) :
  foldl (fun attr state =>
           if str_contains "State" (State.name state)
           then <[State.name state := State.value state]> attr
           else attr) m l =
  foldl (fun attr a => <[State.name a := State.value a]> attr) m
        (filter (fun s => str_contains "State" (State.name s) = true) l).
Proof.
  revert m. induction l as [|a l IH]; intros m; [done|].
  simpl. destruct (str_contains "State" (State.name a)) eqn:E.
  - rewrite filter_cons_True by done. simpl. apply IH.
  - rewrite filter_cons_False by congruence. apply IH.
Qed.

Lemma for_each_foldl {X Y} (f : X -> Y -> X) (x : X) (o : option (list Y)) :
  for_each o f x = foldl f x (default [] o).
Proof. by destruct o as [[|y l]|]. Qed.

Lemma device_state_attributes_stored self w d :
  data (coordinator w) !! device_url self = Some d ->
  let v := next (State.value <$>
                   filter (fun s => State.name s ∈ [CORE_RSSI_LEVEL_STATE])
                          (default [] (Device.states d))) VNone in
  let attr0 : gmap string PyVal :=
    <["controllable_name" := VStr (Device.controllable_name d)]>
      (<["widget" := VStr (Device.widget d)]>
         (<["ui_class" := VStr (Device.ui_class d)]> ∅)) in
  device_state_attributes self w =
    Ok (foldl (fun attr a => <[State.name a := State.value a]> attr)
          (foldl (fun attr a => <[State.name a := State.value a]> attr)
             (if is_not_None v then <[ATTR_RSSI_LEVEL := v]> attr0 else attr0)
             (default [] (Device.attributes d)))
          (filter (fun s => str_contains "State" (State.name s) = true)
                  (default [] (Device.states d)))).
Proof.
  intros Hd v attr0.
  pose proof (select_state_stored self w d [CORE_RSSI_LEVEL_STATE] Hd) as Hsel.
  fold v in Hsel.
  pose proof (has_state_of_select self w _ v Hsel) as Hhas.
  unfold device_state_attributes, bind.
  rewrite (device_stored self w d Hd), Hhas.
  destruct (is_not_None v); [rewrite Hsel|]; unfold ret;
    by rewrite !for_each_foldl, foldl_insert_if.
Qed.

Lemma base_fields_lookup d (k : string) :
  (<["controllable_name" := VStr (Device.controllable_name d)]>
     (<["widget" := VStr (Device.widget d)]>
        (<["ui_class" := VStr (Device.ui_class d)]> (∅ : gmap string PyVal))))
    !! k = base_fields d k.
Proof.
  unfold base_fields. rewrite !lookup_insert, lookup_empty.
  repeat case_decide; congruence.
Qed.

Lemma rssi_entry_lookup d (k : string) (m : gmap string PyVal) :
  let v := next (State.value <$>
                   filter (fun s => State.name s ∈ [CORE_RSSI_LEVEL_STATE])
                          (default [] (Device.states d))) VNone in
  (if is_not_None v then <[ATTR_RSSI_LEVEL := v]> m else m) !! k =
    match rssi_entry d k with
    | Some v' => Some v'
    | None => m !! k
    end.
Proof.
  unfold rssi_entry.
  rewrite (list_filter_iff (fun s => State.name s ∈ [CORE_RSSI_LEVEL_STATE])
                           (fun s => State.name s = CORE_RSSI_LEVEL_STATE))
    by (intros x; apply list_elem_of_singleton).
  destruct (filter _ _) as [|s l]; simpl; [done|].
  destruct (is_not_None (State.value s)).
  - rewrite lookup_insert. repeat case_decide; congruence.
  - by case_decide.
Qed.

Lemma rssi_entry_only_if_present d (k : string) (v : PyVal) :
  rssi_entry d k = Some v ->
  k = ATTR_RSSI_LEVEL
  /\ exists s, s ∈ default [] (Device.states d)
               /\ State.name s = CORE_RSSI_LEVEL_STATE
               /\ State.value s = v.
Proof.
  unfold rssi_entry.
  destruct (filter _ _) as [|s l] eqn:E; [done|].
  assert (Hs : s ∈ filter (fun s => State.name s = CORE_RSSI_LEVEL_STATE)
                          (default [] (Device.states d)))
    by (rewrite E; left).
  apply list_elem_of_filter in Hs as [Hname Hin].
  case_decide; [|done].
  destruct (is_not_None (State.value s)); [|done].
  intros [= <-]. eauto.
Qed.

(** C5: the attribute mapping is the merge, in this order, of the
    ui/widget/controllable fields, the RSSI entry (written only if the
    RSSI state is in the state list), every static attribute and every
    state whose name contains [State]; under each key the last write
    wins. For the Shutter / UpDownExteriorBlind sample with one static
    attribute and one closure state the mapping has exactly the five
    expected entries. *)
Theorem device_state_attributes_merge_order self w d :
  data (coordinator w) !! device_url self = Some d ->
  exists attr : gmap string PyVal,
    device_state_attributes self w = Ok attr
    /\ (forall k, attr !! k = merged_attribute d k)
    /\ (forall k v,
          rssi_entry d k = Some v ->
          k = ATTR_RSSI_LEVEL
          /\ exists s, s ∈ default [] (Device.states d)
                       /\ State.name s = CORE_RSSI_LEVEL_STATE
                       /\ State.value s = v)
    /\ (Device.ui_class d = "Shutter" ->
        Device.widget d = "UpDownExteriorBlind" ->
        Device.attributes d = Some [State.Build "manufacturer" (VStr "X")] ->
        Device.states d = Some [State.Build "core:ClosureState" (VStr "50")] ->
        attr = {[ "ui_class" := VStr "Shutter";
                  "widget" := VStr "UpDownExteriorBlind";
                  "controllable_name" := VStr (Device.controllable_name d);
                  "manufacturer" := VStr "X";
                  "core:ClosureState" := VStr "50" ]}
        /\ dom attr = {[ "ui_class"; "widget"; "controllable_name";
                         "manufacturer"; "core:ClosureState" ]}).
Proof.
  intros Hd. eexists. split; [by apply device_state_attributes_stored|].
  split_and!.
  - intros k. unfold merged_attribute.
    rewrite !foldl_insert_lookup, rssi_entry_lookup, base_fields_lookup.
    reflexivity.
  - apply rssi_entry_only_if_present.
  - intros Hui Hwidget Hattrs Hstates.
    rewrite Hui, Hwidget, Hattrs, Hstates.
    generalize (Device.controllable_name d). intros c.
    split.
    + apply map_eq. intros k. vm_compute. reflexivity.
    + vm_compute. reflexivity.
Qed.

(** *** The snapshot accessor *)

(** C7: the snapshot accessor returns the stored snapshot when the bound
    identity is in the store and raises [KeyError] when it is not; the
    entity's read accessors, [available] among them, raise the same
    [KeyError] instead of reporting the entity as unavailable. *)
Theorem device_raises_when_absent self w :
  (forall d, data (coordinator w) !! device_url self = Some d ->
             device self w = Ok d)
  /\ (data (coordinator w) !! device_url self = None ->
      device self w = Raise (KeyError (device_url self))
      /\ available self w = Raise (KeyError (device_url self))
      /\ name self w = Raise (KeyError (device_url self))
      /\ unique_id self w = Raise (KeyError (device_url self))
      /\ assumed_state self w = Raise (KeyError (device_url self))
      /\ device_state_attributes self w = Raise (KeyError (device_url self))
      /\ (forall C, select_state self C w = Raise (KeyError (device_url self)))
      /\ (forall C, has_state self C w = Raise (KeyError (device_url self)))
      /\ (forall C, select_command self C w = Raise (KeyError (device_url self)))
      /\ (forall C, has_command self C w = Raise (KeyError (device_url self)))).
Proof.
  split; [apply device_stored|].
  intros Hd%device_missing.
  unfold available, name, unique_id, assumed_state, device_state_attributes,
    has_state, select_state, has_command, select_command, bind.
  rewrite Hd. by split_and!.
Qed.
End Accessors.

(** ** Strings *)

Section Strings.
Implicit Types (sep : Ascii.ascii) (s : string).

Lemma hash_is_hash : String hash EmptyString = "#".
Proof. reflexivity. Qed.

Lemma str_contains_hash s :
  str_contains "#" s = bool_decide (0 < str_count hash s).
Proof.
  induction s as [|c s IH]; [done|].
  cbn [str_contains str_count String.prefix]. rewrite IH.
  destruct (Ascii.ascii_dec _ c) as [<-|Hne].
  - by destruct s.
  - assert (Ascii.eqb c hash = false) as ->.
    { apply Ascii.eqb_neq. intros ->. by apply Hne. }
    by destruct s.
Qed.

Lemma str_split_length sep s : length (str_split sep s) = S (str_count sep s).
Proof.
  induction s as [|c s IH]; [done|].
  cbn [str_split str_count]. destruct (Ascii.eqb c sep); simpl.
  - by rewrite IH.
  - destruct (str_split sep s); simpl in *; [done|]. by rewrite <- IH.
Qed.

Lemma str_split_head sep s : head (str_split sep s) = Some (str_before sep s).
Proof.
  induction s as [|c s IH]; [done|].
  cbn [str_split str_before]. destruct (Ascii.eqb c sep); [done|].
  destruct (str_split sep s); simpl in *; congruence.
Qed.

Lemma str_split_one sep s :
  str_count sep s = 1 -> exists rest, str_split sep s = [str_before sep s; rest].
Proof.
  intros Hc. pose proof (str_split_length sep s) as Hlen.
  pose proof (str_split_head sep s) as Hhd. rewrite Hc in Hlen.
  destruct (str_split sep s) as [|a [|b [|]]]; simplify_eq/=. by exists b.
Qed.

End Strings.

(** ** Device registry information *)

Section DeviceInfo.
Context {Client : Type} (DOMAIN : string).
Implicit Types (self : TahomaDevice) (w : World Client) (d : Device.t).

Lemma name_stored self w d :
  data (coordinator w) !! device_url self = Some d ->
  name self w = Ok (Device.label d).
Proof. intros Hd%device_stored. unfold name, bind, ret. by rewrite Hd. Qed.

(** C4: a device identity has at most one [#], the separator before the
    sub-device number. For every such identity, stored with its own
    snapshot: when it contains [#], the grouping key in [identifiers] is
    the substring before the [#] (the host's entity registry, which the
    name is then read from, being loaded); when it contains no [#], the
    grouping key is the identity itself, the name is the snapshot's
    label, and the host's data is not consulted. The identity
    [io://1234-5678-9012/12345#1] has the key
    [io://1234-5678-9012/12345]. *)
Theorem device_info_grouping_key self w d :
  data (coordinator w) !! device_url self = Some d ->
  Device.deviceurl d = device_url self ->
  str_count hash (device_url self) <= 1 ->
  (str_contains "#" (device_url self) = true ->
   forall reg, hass_data (hass w) !! "entity_registry" = Some reg ->
   exists info,
     device_info DOMAIN self w = Ok info
     /\ identifiers info = {[ (DOMAIN, str_before hash (device_url self)) ]}
     /\ info_name info =
          next (RegistryEntry.original_name ∘ snd <$>
                  filter (fun item =>
                            RegistryEntry.unique_id (snd item) =
                              str_before hash (device_url self) +:+ "#1")
                         (entities reg))
               None)
  /\ (str_contains "#" (device_url self) = false ->
      exists info,
        device_info DOMAIN self w = Ok info
        /\ identifiers info = {[ (DOMAIN, device_url self) ]}
        /\ info_name info = Some (Device.label d)
        /\ forall w', coordinator w' = coordinator w ->
                      device_info DOMAIN self w' = Ok info)
  /\ str_before hash "io://1234-5678-9012/12345#1" = "io://1234-5678-9012/12345".
Proof.
  intros Hd Hurl Hdomain.
  pose proof (select_state_stored self w d [CORE_MANUFACTURER_NAME_STATE] Hd) as Hm.
  pose proof (select_state_stored self w d [CORE_MODEL_STATE] Hd) as Hmo.
  pose proof (device_stored self w d Hd) as Hdev.
  pose proof (name_stored self w d Hd) as Hname.
  split_and!; [| |reflexivity].
  - intros Hyes reg Hreg.
    assert (Hone : str_count hash (device_url self) = 1).
    { rewrite str_contains_hash in Hyes. apply bool_decide_eq_true in Hyes. lia. }
    destruct (str_split_one hash (device_url self) Hone) as [rest Hsplit].
    eexists. split_and!.
    + unfold device_info, bind. rewrite Hm, Hmo, Hdev, Hname, Hyes, ?Hdev.
      rewrite Hurl, Hsplit. unfold unpack_first_of_two, ret, hass_data_get.
      rewrite Hreg, ?Hdev. reflexivity.
    + reflexivity.
    + reflexivity.
  - intros Hno. eexists. split_and!.
    + unfold device_info, bind. rewrite Hm, Hmo, Hdev, Hname, Hno.
      unfold ret. rewrite ?Hdev. reflexivity.
    + reflexivity.
    + reflexivity.
    + intros w' Hco.
      assert (Hd' : data (coordinator w') !! device_url self = Some d)
        by (by rewrite Hco).
      unfold device_info, bind.
      rewrite (select_state_stored self w' d _ Hd'),
        (select_state_stored self w' d _ Hd'),
        (device_stored self w' d Hd'), (name_stored self w' d Hd'), Hno.
      unfold ret. by rewrite ?(device_stored self w' d Hd').
Qed.
End DeviceInfo.

(** ** Executing and cancelling commands *)

Section Coroutines.
Context {Client : Type}.
Context {hub : TahomaClient Client} {scheduler : DataUpdateCoordinator Client}.
Implicit Types (self : TahomaDevice) (w : World Client) (d : Device.t).

(** C2: when the hub client accepts the submission and returns an
    execution id, the entry (device identity, command name) is in the
    tracking table, under that id, of the coordinator on which the
    forced refresh is started, and what the call returns, and the
    coordinator it leaves, are what that refresh returned. *)
Theorem async_execute_command_tracks_then_refreshes
    self (command_name : string) (args : list PyVal) w d
    (exec_id : string) (c' : Client) :
  data (coordinator w) !! device_url self = Some d ->
  execute_command (Device.deviceurl d) (Command.Build command_name args)
    "Home Assistant" (client (coordinator w)) = (Ok exec_id, c') ->
  let entry := {| exec_deviceurl := Device.deviceurl d;
                  exec_command_name := command_name |} in
  let tracked := {| data := data (coordinator w);
                    executions := <[exec_id := entry]> (executions (coordinator w));
                    client := c' |} in
  executions tracked !! exec_id = Some entry
  /\ async_execute_command self command_name args w =
       (fst (async_refresh tracked),
        {| coordinator := snd (async_refresh tracked);
           hass := hass w;
           _LOGGER := _LOGGER w;
           awaited :=
             awaited w ++
               [CallExecuteCommand (Device.deviceurl d)
                  (Command.Build command_name args) "Home Assistant";
                CallAsyncRefresh] |}).
Proof.
  intros Hd Hexec entry tracked. split.
  - apply lookup_insert_eq.
  - pose proof (device_stored self w d Hd) as Hdev.
    unfold async_execute_command, try_except_return, abind, lift, on_client.
    rewrite Hdev, Hexec.
    unfold device at 1. cbn [coordinator data]. rewrite Hd.
    unfold executions_setitem, coordinator_async_refresh.
    cbn [coordinator data executions client hass _LOGGER awaited].
    fold entry. fold tracked.
    destruct (async_refresh tracked) as [r co]. simpl.
    by rewrite <- app_assoc.
Qed.

(** C3: when the submission fails, whether the hub client raises or
    the snapshot lookup before it does, the call returns normally, the
    tracking table and the snapshot store are as before, the exception
    is logged, and no refresh is among the collaborator calls made. *)
Theorem async_execute_command_swallows_failure
    self (command_name : string) (args : list PyVal) w :
  (forall d e c',
      data (coordinator w) !! device_url self = Some d ->
      execute_command (Device.deviceurl d) (Command.Build command_name args)
        "Home Assistant" (client (coordinator w)) = (Raise e, c') ->
      async_execute_command self command_name args w =
        (Ok tt,
         {| coordinator := {| data := data (coordinator w);
                              executions := executions (coordinator w);
                              client := c' |};
            hass := hass w;
            _LOGGER := _LOGGER w ++ [e];
            awaited :=
              awaited w ++
                [CallExecuteCommand (Device.deviceurl d)
                   (Command.Build command_name args) "Home Assistant"] |}))
  /\ (data (coordinator w) !! device_url self = None ->
      async_execute_command self command_name args w =
        (Ok tt,
         {| coordinator := coordinator w;
            hass := hass w;
            _LOGGER := _LOGGER w ++ [KeyError (device_url self)];
            awaited := awaited w |})).
Proof.
  split.
  - intros d e c' Hd%device_stored Hexec.
    unfold async_execute_command, try_except_return, abind, lift, on_client.
    by rewrite Hd, Hexec.
  - intros Hd%device_missing.
    unfold async_execute_command, try_except_return, abind, lift.
    by rewrite Hd.
Qed.

(** C8: cancelling forwards the execution id to the hub client and does
    nothing else: the call returns or raises exactly what the client
    did, and the snapshot store, the tracking table, the log and the
    host are unchanged. *)
Theorem async_cancel_command_forwards self (exec_id : string) w :
  let answer := cancel_command exec_id (client (coordinator w)) in
  let outcome := async_cancel_command self exec_id w in
  fst outcome = fst answer
  /\ (forall e, fst answer = Raise e -> fst outcome = Raise e)
  /\ data (coordinator (snd outcome)) = data (coordinator w)
  /\ executions (coordinator (snd outcome)) = executions (coordinator w)
  /\ client (coordinator (snd outcome)) = snd answer
  /\ hass (snd outcome) = hass w
  /\ _LOGGER (snd outcome) = _LOGGER w
  /\ awaited (snd outcome) = awaited w ++ [CallCancelCommand exec_id].
Proof.
  intros answer outcome. subst answer outcome.
  unfold async_cancel_command, on_client.
  destruct (cancel_command exec_id (client (coordinator w))) as [r c].
  by split_and!.
Qed.
End Coroutines.


(** ** The properties at the sample worlds *)

Lemma select_state_first_in_stored_order_witness :
  select_state Sample.entity ["core:A"; "core:B"] Sample.world_BA = Ok (VStr "b").
Proof.
  refine (proj1 (select_state_first_in_stored_order Sample.entity Sample.world_BA
                   (Sample.device_at Sample.url (Some Sample.states_BA))
                   ["core:A"; "core:B"] _)
            [] (State.Build "core:B" (VStr "b")) [State.Build "core:A" (VStr "a")]
            _ _ _).
  - vm_compute. reflexivity.
  - reflexivity.
  - simpl. set_solver.
  - intros x Hx. by apply elem_of_nil in Hx.
Defined.

Lemma select_state_present_with_none_witness :
  select_state Sample.entity ["core:A"] Sample.world_none = Ok VNone
  /\ has_state Sample.entity ["core:A"] Sample.world_none = Ok false.
Proof.
  assert (H := select_state_present_with_none Sample.entity Sample.world_none
                 (Sample.device_at Sample.url (Some Sample.states_none))
                 ["core:A"] [] (State.Build "core:A" VNone)
                 [State.Build "core:A" (VStr "a")]).
  destruct H as (Hsel & Hhas & _).
  - vm_compute. reflexivity.
  - reflexivity.
  - simpl. set_solver.
  - reflexivity.
  - intros x Hx. by apply elem_of_nil in Hx.
  - by split.
Defined.

Lemma assumed_state_iff_no_states_witness :
  assumed_state Sample.entity Sample.world_bare = Ok true.
Proof.
  destruct (assumed_state_iff_no_states Sample.entity Sample.world_bare
              (Sample.device_at Sample.url None))
    as (b & Hb & Hiff).
  - vm_compute. reflexivity.
  - rewrite Hb. f_equal. apply Hiff. left. reflexivity.
Defined.

Lemma select_command_first_supported_witness :
  select_command Sample.entity ["toggle"; "close"; "open"] Sample.world_bare =
    Ok (Some "close").
Proof.
  refine (proj2 (proj2 (select_command_first_supported Sample.entity
                          Sample.world_bare (Sample.device_at Sample.url None)
                          ["toggle"; "close"; "open"] _)) _).
  - vm_compute. reflexivity.
  - reflexivity.
Defined.

Lemma device_state_attributes_merge_order_witness :
  exists attr : gmap string PyVal,
    device_state_attributes Sample.entity Sample.world_shutter = Ok attr
    /\ attr !! "manufacturer" = Some (VStr "X")
    /\ attr !! "core:ClosureState" = Some (VStr "50")
    /\ attr !! ATTR_RSSI_LEVEL = None
    /\ dom attr = {[ "ui_class"; "widget"; "controllable_name";
                     "manufacturer"; "core:ClosureState" ]}.
Proof.
  destruct (device_state_attributes_merge_order Sample.entity
              Sample.world_shutter (Sample.device_at Sample.url (Some Sample.closure)))
    as (attr & Hattr & Hmerge & _ & Hsample).
  - vm_compute. reflexivity.
  - exists attr. split; [exact Hattr|].
    rewrite !Hmerge.
    destruct Hsample as [_ Hdom]; try reflexivity.
    split_and!; [vm_compute; reflexivity ..|exact Hdom].
Defined.

Lemma device_raises_when_absent_witness :
  device Sample.entity Sample.empty_world = Raise (KeyError Sample.url)
  /\ available Sample.entity Sample.empty_world = Raise (KeyError Sample.url).
Proof.
  destruct (proj2 (device_raises_when_absent Sample.entity Sample.empty_world))
    as (Hdev & Hav & _).
  - vm_compute. reflexivity.
  - split; [exact Hdev|exact Hav].
Defined.

(** The failure of the snapshot accessor is not turned into "unavailable":
    at an identity missing from the store, [available] does not return
    [False]; it raises. *)
Lemma available_raises_when_absent :
  ~ (forall (self : TahomaDevice) (w : World nat),
        data (coordinator w) !! device_url self = None ->
        device self w = Raise (KeyError (device_url self))
        /\ available self w = Ok false).
Proof.
  intros H.
  destruct (H Sample.entity Sample.empty_world) as [_ Hav].
  - vm_compute. reflexivity.
  - vm_compute in Hav. discriminate Hav.
Qed.

Lemma device_info_grouping_key_witness :
  (exists info,
      device_info "tahoma" {| device_url := Sample.sub_url |} Sample.world_sub = Ok info
      /\ identifiers info = {[ ("tahoma", "io://1234-5678-9012/12345") ]}
      /\ info_name info = Some "Bedroom thermostat")
  /\ (exists info,
        device_info "tahoma" Sample.entity
          (Sample.bare_world_of (Sample.device_at Sample.url None)) = Ok info
        /\ identifiers info = {[ ("tahoma", "io://1234-5678-9012/12345") ]}
        /\ info_name info = Some "Bedroom").
Proof.
  split; cycle 1.
  { assert (Hd : data (coordinator (Sample.bare_world_of
                                      (Sample.device_at Sample.url None)))
                   !! Sample.url = Some (Sample.device_at Sample.url None))
      by (vm_compute; reflexivity).
    assert (Hdomain : str_count hash Sample.url <= 1) by (vm_compute; lia).
    destruct (proj1 (proj2 (device_info_grouping_key "tahoma" Sample.entity _ _
                              Hd eq_refl Hdomain))
                eq_refl)
      as (info & Hinfo & Hids & Hname & _).
    exists info. split_and!; [exact Hinfo|exact Hids|exact Hname]. }
  assert (Hd : data (coordinator Sample.world_sub) !! Sample.sub_url =
                 Some (Sample.device_at Sample.sub_url None))
    by (vm_compute; reflexivity).
  assert (Hdomain : str_count hash Sample.sub_url <= 1) by (vm_compute; lia).
  destruct (proj1 (device_info_grouping_key "tahoma"
                     {| device_url := Sample.sub_url |} Sample.world_sub
                     (Sample.device_at Sample.sub_url None) Hd eq_refl Hdomain)
              eq_refl Sample.registry)
    as (info & Hinfo & Hids & Hname).
  - vm_compute. reflexivity.
  - exists info. split; [exact Hinfo|]. split; [exact Hids|].
    rewrite Hname. vm_compute. reflexivity.
Defined.

Lemma async_execute_command_tracks_then_refreshes_witness :
  let out := async_execute_command (hub := Sample.accepting)
               (scheduler := Sample.idle) Sample.entity "close" [] Sample.world_bare in
  fst out = Ok tt
  /\ executions (coordinator (snd out)) !! "E1" =
       Some {| exec_deviceurl := Sample.url; exec_command_name := "close" |}
  /\ awaited (snd out) =
       [CallExecuteCommand Sample.url (Command.Build "close" []) "Home Assistant";
        CallAsyncRefresh].
Proof.
  destruct (async_execute_command_tracks_then_refreshes
              (hub := Sample.accepting) (scheduler := Sample.idle)
              Sample.entity "close" [] Sample.world_bare
              (Sample.device_at Sample.url None) "E1" 1)
    as [Htracked Hout].
  - vm_compute. reflexivity.
  - reflexivity.
  - intros out. subst out. rewrite Hout.
    split_and!; [reflexivity|exact Htracked|reflexivity].
Defined.

Lemma async_execute_command_swallows_failure_witness :
  let out := async_execute_command (hub := Sample.rejecting)
               (scheduler := Sample.idle) Sample.entity "close" [] Sample.world_bare in
  fst out = Ok tt
  /\ executions (coordinator (snd out)) = executions (coordinator Sample.world_bare)
  /\ _LOGGER (snd out) = [ClientError "rejected"]
  /\ awaited (snd out) =
       [CallExecuteCommand Sample.url (Command.Build "close" []) "Home Assistant"].
Proof.
  intros out. subst out.
  rewrite (proj1 (async_execute_command_swallows_failure
                    (hub := Sample.rejecting) (scheduler := Sample.idle)
                    Sample.entity "close" [] Sample.world_bare)
             (Sample.device_at Sample.url None) (ClientError "rejected") 1).
  - by split_and!.
  - vm_compute. reflexivity.
  - reflexivity.
Defined.

Lemma async_cancel_command_forwards_witness :
  fst (async_cancel_command (hub := Sample.rejecting) Sample.entity "E1"
         Sample.world_bare) = Raise (ClientError "unknown execution").
Proof.
  apply (proj1 (proj2 (async_cancel_command_forwards (hub := Sample.rejecting)
                         Sample.entity "E1" Sample.world_bare))).
  reflexivity.
Defined.

(** * Further properties of the entity *)

(** ** Commands and states *)

Section Lookups.
Context {Client : Type}.
Implicit Types (self : TahomaDevice) (w : World Client) (d : Device.t).

Lemma select_command_stored self w d (commands : list string) :
  data (coordinator w) !! device_url self = Some d ->
  select_command self commands w =
    Ok (next (Some <$> filter (fun c => c ∈ Definition_.commands (Device.definition d))
                              commands) None).
Proof. intros Hd%device_stored. unfold select_command, bind, ret. by rewrite Hd. Qed.

(** [select_command] never invents a name: a returned command is one of
    the candidates and is supported by the device, and [None] is returned
    only when no candidate is supported. *)
Theorem select_command_sound self w d (commands : list string) :
  data (coordinator w) !! device_url self = Some d ->
  (forall c, select_command self commands w = Ok (Some c) ->
             c ∈ commands /\ c ∈ Definition_.commands (Device.definition d))
  /\ (select_command self commands w = Ok None ->
      forall c, c ∈ commands -> c ∉ Definition_.commands (Device.definition d)).
Proof.
  intros Hd. rewrite (select_command_stored self w d commands Hd).
  destruct (filter _ commands) as [|c0 l] eqn:E; simpl; split.
  - intros c [=].
  - intros _ c Hc Hin.
    assert (Hf : c ∈ filter (fun c => c ∈ Definition_.commands (Device.definition d))
                            commands)
      by (by apply list_elem_of_filter).
    rewrite E in Hf. by apply elem_of_nil in Hf.
  - intros c [= <-].
    assert (Hf : c0 ∈ filter (fun c => c ∈ Definition_.commands (Device.definition d))
                             commands)
      by (rewrite E; left).
    apply list_elem_of_filter in Hf as [? ?]. by split.
  - intros [=].
Qed.

(** [has_command] answers whether at least one candidate is supported. *)
Theorem has_command_iff_supported self w d (commands : list string) :
  data (coordinator w) !! device_url self = Some d ->
  exists b, has_command self commands w = Ok b
            /\ (b = true <->
                exists c, c ∈ commands
                          /\ c ∈ Definition_.commands (Device.definition d)).
Proof.
  intros Hd. unfold has_command, bind, ret.
  rewrite (select_command_stored self w d commands Hd).
  eexists. split; [reflexivity|].
  destruct (filter _ commands) as [|c0 l] eqn:E; simpl.
  - split; [done|]. intros (c & Hc & Hin).
    assert (Hf : c ∈ filter (fun c => c ∈ Definition_.commands (Device.definition d))
                            commands)
      by (by apply list_elem_of_filter).
    rewrite E in Hf. by apply elem_of_nil in Hf.
  - split; [|done]. intros _. exists c0.
    assert (Hf : c0 ∈ filter (fun c => c ∈ Definition_.commands (Device.definition d))
                             commands)
      by (rewrite E; left).
    apply list_elem_of_filter in Hf as [? ?]. by split.
Qed.

(** Only the set of candidate state names matters to [select_state] and
    [has_state]: reordering or repeating the candidates changes nothing,
    whether or not the device is in the store. *)
Theorem select_state_candidates_as_set self w (C C' : list string) :
  (forall n, n ∈ C <-> n ∈ C') ->
  select_state self C w = select_state self C' w
  /\ has_state self C w = has_state self C' w.
Proof.
  intros Hset.
  assert (Hsel : select_state self C w = select_state self C' w).
  { unfold select_state, bind, ret. destruct (device self w) as [d|e]; [|done].
    destruct (Device.states d) as [[|s l]|]; [done| |done].
    by rewrite (list_filter_iff (fun state => State.name state ∈ C)
                                (fun state => State.name state ∈ C')). }
  split; [done|]. unfold has_state, bind. by rewrite Hsel.
Qed.

(** [has_state] is true exactly when the first stored state named by a
    candidate carries a value other than [None]. *)
Theorem has_state_iff_first_match_valued self w d (C : list string) :
  data (coordinator w) !! device_url self = Some d ->
  has_state self C w = Ok true <->
  exists pre s post,
    Device.states d = Some (pre ++ s :: post)
    /\ State.name s ∈ C
    /\ (forall x, x ∈ pre -> State.name x ∉ C)
    /\ State.value s <> VNone.
Proof.
  intros Hd. destruct (select_state_scan self w d C Hd) as [Hfirst Hnone].
  split.
  - intros Hhas.
    destruct (Device.states d) as [L|] eqn:HL.
    + destruct (first_match_or_none (fun s => State.name s ∈ C) L)
        as [(pre & s & post & -> & Hs & Hpre)|Hno].
      * exists pre, s, post. split_and!; [done|done|done|].
        intros Hv. specialize (Hfirst pre s post eq_refl Hs Hpre).
        rewrite (has_state_of_select self w C _ Hfirst), Hv in Hhas.
        discriminate Hhas.
      * assert (Hsel : select_state self C w = Ok VNone).
        { apply Hnone. by intros L' x [= <-] Hx%Hno. }
        rewrite (has_state_of_select self w C _ Hsel) in Hhas.
        discriminate Hhas.
    + assert (Hsel : select_state self C w = Ok VNone) by (by apply Hnone).
      rewrite (has_state_of_select self w C _ Hsel) in Hhas.
      discriminate Hhas.
  - intros (pre & s & post & HL & Hs & Hpre & Hv).
    rewrite (has_state_of_select self w C _ (Hfirst pre s post HL Hs Hpre)).
    by destruct (State.value s).
Qed.

(** An entity whose state is assumed has no state to select: every
    [select_state] gives [None] and every [has_state] gives [False]. *)
Theorem assumed_state_selects_nothing self w (C : list string) :
  assumed_state self w = Ok true ->
  select_state self C w = Ok VNone /\ has_state self C w = Ok false.
Proof.
  intros Hassumed.
  assert (Hsel : select_state self C w = Ok VNone).
  { revert Hassumed. unfold assumed_state, select_state, bind, ret.
    destruct (device self w) as [d|e]; [|done].
    by destruct (Device.states d) as [[|s l]|]. }
  split; [done|]. by rewrite (has_state_of_select self w C _ Hsel).
Qed.
End Lookups.

(** ** The keys of the attribute mapping *)

Section AttributeKeys.
Context {Client : Type}.
Implicit Types (self : TahomaDevice) (w : World Client) (d : Device.t).

Lemma last_write_is_Some (k : string) (l : list State.t) :
  is_Some (last_write k l) <-> exists a, a ∈ l /\ State.name a = k.
Proof.
  unfold last_write. rewrite fmap_is_Some, last_is_Some. split.
  - intros Hne. destruct (filter _ l) as [|a l'] eqn:E; [done|].
    assert (Ha : a ∈ filter (fun s => State.name s = k) l) by (rewrite E; left).
    apply list_elem_of_filter in Ha as [? ?]. by exists a.
  - intros (a & Ha & Hk) E.
    assert (Hf : a ∈ filter (fun s => State.name s = k) l)
      by (by apply list_elem_of_filter).
    rewrite E in Hf. by apply elem_of_nil in Hf.
Qed.

Lemma last_write_None (k : string) (l : list State.t) :
  (forall a, a ∈ l -> State.name a <> k) -> last_write k l = None.
Proof.
  intros Hl. destruct (last_write k l) eqn:E; [|done].
  destruct (proj1 (last_write_is_Some k l)) as (a & Ha & Hk); [by rewrite E|].
  by destruct (Hl a Ha).
Qed.

Lemma device_state_attributes_lookup self w d :
  data (coordinator w) !! device_url self = Some d ->
  exists attr : gmap string PyVal,
    device_state_attributes self w = Ok attr
    /\ forall k, attr !! k = merged_attribute d k.
Proof.
  intros Hd. eexists. split; [by apply device_state_attributes_stored|].
  intros k. unfold merged_attribute.
  by rewrite !foldl_insert_lookup, rssi_entry_lookup, base_fields_lookup.
Qed.

Lemma rssi_entry_is_Some self w d (k : string) :
  data (coordinator w) !! device_url self = Some d ->
  is_Some (rssi_entry d k) <->
  k = ATTR_RSSI_LEVEL /\ has_state self [CORE_RSSI_LEVEL_STATE] w = Ok true.
Proof.
  intros Hd.
  rewrite (has_state_of_select self w _ _
             (select_state_stored self w d [CORE_RSSI_LEVEL_STATE] Hd)).
  unfold rssi_entry.
  rewrite (list_filter_iff (fun s => State.name s ∈ [CORE_RSSI_LEVEL_STATE])
                           (fun s => State.name s = CORE_RSSI_LEVEL_STATE))
    by (intros x; apply list_elem_of_singleton).
  destruct (filter _ _) as [|s l]; simpl.
  - split; [by intros [? [=]]|by intros [_ [=]]].
  - case_decide; destruct (is_not_None (State.value s));
      split; try (by intros [? [=]]); eauto.
Qed.

Lemma base_fields_is_Some d (k : string) :
  is_Some (base_fields d k) <-> k ∈ ["ui_class"; "widget"; "controllable_name"].
Proof.
  unfold base_fields. rewrite !elem_of_cons, elem_of_nil.
  repeat case_decide; split; eauto; try (by intros [? [=]]).
  intros [?|[?|[?|[]]]]; congruence.
Qed.

(** The keys of the attribute mapping are the three fixed fields, the
    RSSI key when [has_state] finds the RSSI state, the name of every
    static attribute, and the name of every state that contains [State];
    nothing else is ever a key. *)
Theorem device_state_attributes_keys self w d :
  data (coordinator w) !! device_url self = Some d ->
  exists attr : gmap string PyVal,
    device_state_attributes self w = Ok attr
    /\ forall k,
        k ∈ dom attr <->
        k ∈ ["ui_class"; "widget"; "controllable_name"]
        \/ (k = ATTR_RSSI_LEVEL
            /\ has_state self [CORE_RSSI_LEVEL_STATE] w = Ok true)
        \/ (exists a, a ∈ default [] (Device.attributes d) /\ State.name a = k)
        \/ (exists s, s ∈ default [] (Device.states d)
                      /\ State.name s = k
                      /\ str_contains "State" k = true).
Proof.
  intros Hd.
  destruct (device_state_attributes_lookup self w d Hd) as (attr & Hattr & Hk).
  exists attr. split; [done|]. intros k.
  rewrite elem_of_dom, Hk, <- (rssi_entry_is_Some self w d k Hd),
    <- base_fields_is_Some, <- last_write_is_Some.
  assert (Hstates :
    is_Some (last_write k (filter (fun s => str_contains "State" (State.name s) = true)
                                  (default [] (Device.states d)))) <->
    exists s, s ∈ default [] (Device.states d)
              /\ State.name s = k /\ str_contains "State" k = true).
  { rewrite last_write_is_Some. split.
    - intros (s & [Hc Hs]%list_elem_of_filter & <-). by exists s.
    - intros (s & Hs & <- & Hc). exists s. split; [|done].
      by apply list_elem_of_filter. }
  rewrite <- Hstates. unfold merged_attribute.
  destruct (last_write k (filter _ _)) as [v1|];
    [split; [intros _; do 3 right; by eexists|by eexists]|].
  destruct (last_write k (default [] (Device.attributes d))) as [v2|];
    [split; [intros _; right; right; left; by eexists|by eexists]|].
  destruct (rssi_entry d k) as [v3|];
    [split; [intros _; right; left; by eexists|by eexists]|].
  split; [by left|].
  intros [H|[H|[H|H]]]; [done|by destruct H ..].
Qed.

(** A state can never replace one of the fixed fields or the RSSI entry,
    whatever its name: without a static attribute of the same name,
    [ui_class], [widget] and [controllable_name] keep the snapshot's
    fields, and [rssi_level], when present, is the value of the first
    RSSI state and is not [None]. *)
Theorem device_state_attributes_fields_kept self w d :
  data (coordinator w) !! device_url self = Some d ->
  exists attr : gmap string PyVal,
    device_state_attributes self w = Ok attr
    /\ ((forall a, a ∈ default [] (Device.attributes d) -> State.name a <> "ui_class") ->
        attr !! "ui_class" = Some (VStr (Device.ui_class d)))
    /\ ((forall a, a ∈ default [] (Device.attributes d) -> State.name a <> "widget") ->
        attr !! "widget" = Some (VStr (Device.widget d)))
    /\ ((forall a, a ∈ default [] (Device.attributes d) ->
                   State.name a <> "controllable_name") ->
        attr !! "controllable_name" = Some (VStr (Device.controllable_name d)))
    /\ ((forall a, a ∈ default [] (Device.attributes d) ->
                   State.name a <> ATTR_RSSI_LEVEL) ->
        attr !! ATTR_RSSI_LEVEL = rssi_entry d ATTR_RSSI_LEVEL
        /\ attr !! ATTR_RSSI_LEVEL <> Some VNone).
Proof.
  intros Hd.
  destruct (device_state_attributes_lookup self w d Hd) as (attr & Hattr & Hk).
  exists attr. split; [done|].
  assert (Hkeep : forall k,
             str_contains "State" k = false ->
             (forall a, a ∈ default [] (Device.attributes d) -> State.name a <> k) ->
             attr !! k = match rssi_entry d k with
                         | Some v => Some v
                         | None => base_fields d k
                         end).
  { intros k Hc Hno. rewrite Hk. unfold merged_attribute.
    rewrite (last_write_None k (filter _ _)), (last_write_None k _ Hno); [done|].
    intros s [Hs _]%list_elem_of_filter Heq. simpl in Hs. congruence. }
  split_and!; intros Hno.
  - rewrite (Hkeep "ui_class" eq_refl Hno). unfold rssi_entry.
    by destruct (filter _ _).
  - rewrite (Hkeep "widget" eq_refl Hno). unfold rssi_entry.
    by destruct (filter _ _).
  - rewrite (Hkeep "controllable_name" eq_refl Hno). unfold rssi_entry.
    by destruct (filter _ _).
  - rewrite (Hkeep ATTR_RSSI_LEVEL eq_refl Hno). unfold rssi_entry.
    destruct (filter _ _) as [|s l]; [done|]. simpl.
    destruct (State.value s); done.
Qed.
End AttributeKeys.

(** ** Device registry information: defaults, registry lookup, errors *)

Section RegistryInfo.
Context {Client : Type} (DOMAIN : string).
Implicit Types (self : TahomaDevice) (w : World Client) (d : Device.t).

Lemma str_before_append (base rest : string) :
  str_count hash base = 0 ->
  str_before hash (base +:+ String hash rest) = base
  /\ str_count hash (base +:+ String hash rest) = S (str_count hash rest).
Proof.
  induction base as [|c base IH]; simpl; [done|].
  destruct (Ascii.eqb c hash); [done|]. simpl.
  intros Hc. destruct (IH Hc) as [-> ->]. done.
Qed.

(** What [device_info] evaluates to once the snapshot is found. *)
Lemma device_info_stored self w d :
  data (coordinator w) !! device_url self = Some d ->
  let first_value n :=
    next (State.value <$>
            filter (fun s => State.name s ∈ [n]) (default [] (Device.states d)))
         VNone in
  let info key label :=
    {| identifiers := {[ (DOMAIN, key) ]};
       info_manufacturer := py_or (first_value CORE_MANUFACTURER_NAME_STATE) (VStr "Somfy");
       info_name := label;
       info_model := py_or (first_value CORE_MODEL_STATE) (VStr (Device.widget d));
       info_sw_version := Device.controllable_name d |} in
  device_info DOMAIN self w =
    if str_contains "#" (device_url self) then
      match unpack_first_of_two (str_split hash (Device.deviceurl d)) w with
      | Ok base =>
          match hass_data (hass w) !! "entity_registry" with
          | Some reg =>
              Ok (info base
                    (next (RegistryEntry.original_name ∘ snd <$>
                             filter (fun item =>
                                       RegistryEntry.unique_id (snd item) =
                                         base +:+ "#1")
                                    (entities reg))
                          None))
          | None => Raise (KeyError "entity_registry")
          end
      | Raise e => Raise e
      end
    else Ok (info (device_url self) (Some (Device.label d))).
Proof.
  intros Hd first_value info.
  unfold device_info, bind.
  rewrite !(select_state_stored self w d _ Hd), (device_stored self w d Hd),
    (name_stored self w d Hd).
  destruct (str_contains "#" (device_url self)).
  - rewrite ?(device_stored self w d Hd).
    destruct (unpack_first_of_two _ w) as [base|e]; [|done].
    unfold hass_data_get.
    destruct (hass_data (hass w) !! "entity_registry") as [reg|]; [|done].
    unfold ret. by rewrite ?(device_stored self w d Hd).
  - unfold ret. by rewrite ?(device_stored self w d Hd).
Qed.

Lemma first_value_named d (n : string) :
  (forall pre s post,
      Device.states d = Some (pre ++ s :: post) ->
      State.name s = n ->
      (forall x, x ∈ pre -> State.name x <> n) ->
      next (State.value <$>
              filter (fun s => State.name s ∈ [n]) (default [] (Device.states d)))
           VNone = State.value s)
  /\ ((forall s, s ∈ default [] (Device.states d) -> State.name s <> n) ->
      next (State.value <$>
              filter (fun s => State.name s ∈ [n]) (default [] (Device.states d)))
           VNone = VNone).
Proof.
  split.
  - intros pre s post -> Hs Hpre. simpl.
    apply (next_first_match (fun s => State.name s ∈ [n])).
    + by apply list_elem_of_singleton.
    + intros x Hx ?%list_elem_of_singleton. by apply (Hpre x).
  - intros Hno. apply (next_no_match (fun s => State.name s ∈ [n])).
    intros x Hx ?%list_elem_of_singleton. by apply (Hno x).
Qed.

(** Whenever [device_info] returns, the software version is the
    controllable name, the manufacturer is the first manufacturer state's
    value, or [Somfy] when there is no such state or its value is falsy
    ([None], an empty string, zero, [False]), and the model is the first
    model state's value, or the widget in the same cases. *)
Theorem device_info_defaults self w d (info : DeviceInfo) :
  data (coordinator w) !! device_url self = Some d ->
  device_info DOMAIN self w = Ok info ->
  info_sw_version info = Device.controllable_name d
  /\ ((forall s, s ∈ default [] (Device.states d) ->
                 State.name s <> CORE_MANUFACTURER_NAME_STATE) ->
      info_manufacturer info = VStr "Somfy")
  /\ ((forall s, s ∈ default [] (Device.states d) ->
                 State.name s <> CORE_MODEL_STATE) ->
      info_model info = VStr (Device.widget d))
  /\ (forall pre s post,
         Device.states d = Some (pre ++ s :: post) ->
         State.name s = CORE_MANUFACTURER_NAME_STATE ->
         (forall x, x ∈ pre -> State.name x <> CORE_MANUFACTURER_NAME_STATE) ->
         info_manufacturer info =
           if truthy (State.value s) then State.value s else VStr "Somfy")
  /\ (forall pre s post,
         Device.states d = Some (pre ++ s :: post) ->
         State.name s = CORE_MODEL_STATE ->
         (forall x, x ∈ pre -> State.name x <> CORE_MODEL_STATE) ->
         info_model info =
           if truthy (State.value s) then State.value s
           else VStr (Device.widget d)).
Proof.
  intros Hd Hinfo. rewrite (device_info_stored self w d Hd) in Hinfo.
  destruct (first_value_named d CORE_MANUFACTURER_NAME_STATE) as [Hm1 Hm0].
  destruct (first_value_named d CORE_MODEL_STATE) as [Ho1 Ho0].
  assert (Hfields :
    info_sw_version info = Device.controllable_name d
    /\ info_manufacturer info =
         py_or (next (State.value <$>
                        filter (fun s => State.name s ∈ [CORE_MANUFACTURER_NAME_STATE])
                               (default [] (Device.states d))) VNone)
               (VStr "Somfy")
    /\ info_model info =
         py_or (next (State.value <$>
                        filter (fun s => State.name s ∈ [CORE_MODEL_STATE])
                               (default [] (Device.states d))) VNone)
               (VStr (Device.widget d))).
  { destruct (str_contains "#" (device_url self)).
    - destruct (unpack_first_of_two _ w); [|done].
      destruct (hass_data (hass w) !! "entity_registry"); [|done].
      by injection Hinfo as <-.
    - by injection Hinfo as <-. }
  destruct Hfields as (Hsw & Hman & Hmod).
  split_and!; [done| | | |].
  - intros Hno. by rewrite Hman, (Hm0 Hno).
  - intros Hno. by rewrite Hmod, (Ho0 Hno).
  - intros pre s post HL Hs Hpre. by rewrite Hman, (Hm1 pre s post HL Hs Hpre).
  - intros pre s post HL Hs Hpre. by rewrite Hmod, (Ho1 pre s post HL Hs Hpre).
Qed.

(** For a sub-device the display name is the original name of the first
    registry entry, in insertion order, whose unique id is the grouping
    key followed by [#1]; when no entry has that id the name is [None]
    and [device_info] still returns. *)
Theorem device_info_name_from_registry self w d (reg : EntityRegistry) :
  data (coordinator w) !! device_url self = Some d ->
  Device.deviceurl d = device_url self ->
  str_count hash (device_url self) = 1 ->
  hass_data (hass w) !! "entity_registry" = Some reg ->
  let canonical := str_before hash (device_url self) +:+ "#1" in
  (forall pre item post,
      entities reg = pre ++ item :: post ->
      RegistryEntry.unique_id (snd item) = canonical ->
      (forall x, x ∈ pre -> RegistryEntry.unique_id (snd x) <> canonical) ->
      exists info, device_info DOMAIN self w = Ok info
                   /\ info_name info = RegistryEntry.original_name (snd item))
  /\ ((forall x, x ∈ entities reg -> RegistryEntry.unique_id (snd x) <> canonical) ->
      exists info, device_info DOMAIN self w = Ok info /\ info_name info = None).
Proof.
  intros Hd Hurl Hone Hreg canonical.
  assert (Hyes : str_contains "#" (device_url self) = true).
  { rewrite str_contains_hash. apply bool_decide_eq_true. lia. }
  destruct (str_split_one hash (device_url self) Hone) as [rest Hsplit].
  rewrite (device_info_stored self w d Hd), Hyes, Hurl, Hsplit.
  unfold unpack_first_of_two, ret. rewrite Hreg. fold canonical.
  split.
  - intros pre item post -> Hitem Hpre. eexists. split; [reflexivity|]. simpl.
    by rewrite (next_first_match
                  (fun item => RegistryEntry.unique_id (snd item) = canonical)).
  - intros Hno. eexists. split; [reflexivity|]. simpl.
    by rewrite (next_no_match
                  (fun item => RegistryEntry.unique_id (snd item) = canonical)).
Qed.

(** Two sub-devices of one housing, [base#i] and [base#j], each stored
    with its own snapshot and with the entity registry loaded, get the
    same identifiers, built on [base], and the same display name. *)
Theorem device_info_siblings_share_group
    self1 self2 w d1 d2 (base i j : string) (reg : EntityRegistry) :
  str_count hash base = 0 ->
  str_count hash i = 0 ->
  str_count hash j = 0 ->
  device_url self1 = base +:+ String hash i ->
  device_url self2 = base +:+ String hash j ->
  data (coordinator w) !! device_url self1 = Some d1 ->
  data (coordinator w) !! device_url self2 = Some d2 ->
  Device.deviceurl d1 = device_url self1 ->
  Device.deviceurl d2 = device_url self2 ->
  hass_data (hass w) !! "entity_registry" = Some reg ->
  exists info1 info2,
    device_info DOMAIN self1 w = Ok info1
    /\ device_info DOMAIN self2 w = Ok info2
    /\ identifiers info1 = {[ (DOMAIN, base) ]}
    /\ identifiers info2 = {[ (DOMAIN, base) ]}
    /\ info_name info2 = info_name info1.
Proof.
  intros Hbase Hi Hj Hu1 Hu2 Hd1 Hd2 Hk1 Hk2 Hreg.
  destruct (str_before_append base i Hbase) as [Hb1 Hc1].
  destruct (str_before_append base j Hbase) as [Hb2 Hc2].
  rewrite Hi in Hc1. rewrite Hj in Hc2.
  rewrite <- Hu1 in Hb1, Hc1. rewrite <- Hu2 in Hb2, Hc2.
  assert (Hyes : forall s, str_count hash s = 1 -> str_contains "#" s = true).
  { intros s Hs. rewrite str_contains_hash. apply bool_decide_eq_true. lia. }
  destruct (str_split_one hash _ Hc1) as [r1 Hs1].
  destruct (str_split_one hash _ Hc2) as [r2 Hs2].
  rewrite (device_info_stored self1 w d1 Hd1), (device_info_stored self2 w d2 Hd2).
  rewrite (Hyes _ Hc1), (Hyes _ Hc2), Hk1, Hk2, Hs1, Hs2, Hb1, Hb2.
  unfold unpack_first_of_two, ret. rewrite Hreg.
  do 2 eexists. split_and!; reflexivity.
Qed.

(** A sub-device needs the host's entity registry: for an identity with
    one [#], stored with its own snapshot, [device_info] raises the
    [KeyError] of the failed lookup when the registry is not loaded. *)
Theorem device_info_registry_missing self w d :
  data (coordinator w) !! device_url self = Some d ->
  Device.deviceurl d = device_url self ->
  str_count hash (device_url self) = 1 ->
  hass_data (hass w) !! "entity_registry" = None ->
  device_info DOMAIN self w = Raise (KeyError "entity_registry").
Proof.
  intros Hd Hurl Hone Hreg.
  assert (Hyes : str_contains "#" (device_url self) = true).
  { rewrite str_contains_hash. apply bool_decide_eq_true. lia. }
  destruct (str_split_one hash (device_url self) Hone) as [rest Hsplit].
  rewrite (device_info_stored self w d Hd), Hyes, Hurl, Hsplit.
  unfold unpack_first_of_two, ret. by rewrite Hreg.
Qed.

(** [device_info] for an identity missing from the store raises the
    [KeyError] of the snapshot lookup, whatever the identity looks like
    and whether or not a registry is loaded. *)
Theorem device_info_device_missing self w :
  data (coordinator w) !! device_url self = None ->
  device_info DOMAIN self w = Raise (KeyError (device_url self)).
Proof.
  intros Hd%device_missing.
  unfold device_info, select_state, bind. by rewrite Hd.
Qed.

(** The [#] test reads the entity's identity while the split reads the
    snapshot's: if the identity has a [#] and the snapshot's url has
    none, the unpacking finds one value and raises. *)
Theorem device_info_snapshot_url_without_separator self w d :
  data (coordinator w) !! device_url self = Some d ->
  str_contains "#" (device_url self) = true ->
  str_count hash (Device.deviceurl d) = 0 ->
  device_info DOMAIN self w =
    Raise (ValueError "not enough values to unpack (expected 2, got 1)").
Proof.
  intros Hd Hyes Hnone.
  rewrite (device_info_stored self w d Hd), Hyes.
  pose proof (str_split_length hash (Device.deviceurl d)) as Hlen.
  rewrite Hnone in Hlen.
  by destruct (str_split hash (Device.deviceurl d)) as [|a [|b l]].
Qed.
End RegistryInfo.

(** ** Executing a command: what escapes and what is left behind *)

Section Execution.
Context {Client : Type}.
Context {hub : TahomaClient Client} {scheduler : DataUpdateCoordinator Client}.
Implicit Types (self : TahomaDevice) (w : World Client) (d : Device.t).

(** The three ways a call of [async_execute_command] can go. *)
Lemma async_execute_command_cases self (command_name : string)
    (args : list PyVal) w :
  let command := Command.Build command_name args in
  match data (coordinator w) !! device_url self with
  | None =>
      async_execute_command self command_name args w =
        (Ok tt,
         {| coordinator := coordinator w; hass := hass w;
            _LOGGER := _LOGGER w ++ [KeyError (device_url self)];
            awaited := awaited w |})
  | Some d =>
      let call := CallExecuteCommand (Device.deviceurl d) command "Home Assistant" in
      match execute_command (Device.deviceurl d) command "Home Assistant"
              (client (coordinator w)) with
      | (Raise e, c') =>
          async_execute_command self command_name args w =
            (Ok tt,
             {| coordinator := {| data := data (coordinator w);
                                  executions := executions (coordinator w);
                                  client := c' |};
                hass := hass w;
                _LOGGER := _LOGGER w ++ [e];
                awaited := awaited w ++ [call] |})
      | (Ok exec_id, c') =>
          let tracked :=
            {| data := data (coordinator w);
               executions :=
                 <[exec_id := {| exec_deviceurl := Device.deviceurl d;
                                 exec_command_name := command_name |}]>
                   (executions (coordinator w));
               client := c' |} in
          async_execute_command self command_name args w =
            (fst (async_refresh tracked),
             {| coordinator := snd (async_refresh tracked);
                hass := hass w;
                _LOGGER := _LOGGER w;
                awaited := awaited w ++ [call; CallAsyncRefresh] |})
      end
  end.
Proof.
  intros command.
  destruct (data (coordinator w) !! device_url self) as [d|] eqn:Hd.
  - pose proof (device_stored self w d Hd) as Hdev.
    unfold async_execute_command, try_except_return, abind, lift, on_client.
    rewrite Hdev. fold command.
    destruct (execute_command _ _ _ _) as [[exec_id|e] c']; [|done].
    unfold device. cbn [coordinator data]. rewrite Hd.
    unfold executions_setitem, coordinator_async_refresh.
    cbn [coordinator data executions client hass _LOGGER awaited].
    destruct (async_refresh _) as [r co]. simpl. by rewrite <- app_assoc.
  - pose proof (device_missing self w Hd) as Hdev.
    unfold async_execute_command, try_except_return, abind, lift.
    by rewrite Hdev.
Qed.

(** A failure of the forced refresh is not swallowed: it is raised to
    the caller and nothing is logged, unlike a failed submission. *)
Theorem async_execute_command_refresh_failure
    self (command_name : string) (args : list PyVal) w d
    (exec_id : string) (c' : Client) (e : Exception) (co : Coordinator Client) :
  data (coordinator w) !! device_url self = Some d ->
  execute_command (Device.deviceurl d) (Command.Build command_name args)
    "Home Assistant" (client (coordinator w)) = (Ok exec_id, c') ->
  async_refresh
    {| data := data (coordinator w);
       executions :=
         <[exec_id := {| exec_deviceurl := Device.deviceurl d;
                         exec_command_name := command_name |}]>
           (executions (coordinator w));
       client := c' |} = (Raise e, co) ->
  let out := async_execute_command self command_name args w in
  fst out = Raise e
  /\ coordinator (snd out) = co
  /\ _LOGGER (snd out) = _LOGGER w.
Proof.
  intros Hd Hexec Hrefresh out. subst out.
  pose proof (async_execute_command_cases self command_name args w) as H.
  cbv zeta in H. rewrite Hd, Hexec, Hrefresh in H. by rewrite H.
Qed.

(** Whatever the client and the refresh do, [async_execute_command]
    submits to the hub client at most once, so it never retries, and
    awaits the refresh at most once and only after that submission; it
    logs at most one exception, and when it logs one it returns normally
    with store and tracking table as they were and without having awaited
    the refresh. *)
Theorem async_execute_command_calls_and_log self (command_name : string)
    (args : list PyVal) w :
  let out := async_execute_command self command_name args w in
  (exists calls,
      awaited (snd out) = awaited w ++ calls
      /\ (calls = []
          \/ exists url,
               let submit :=
                 CallExecuteCommand url (Command.Build command_name args)
                   "Home Assistant" in
               calls = [submit] \/ calls = [submit; CallAsyncRefresh]))
  /\ (_LOGGER (snd out) = _LOGGER w
      \/ exists e, _LOGGER (snd out) = _LOGGER w ++ [e]
                   /\ fst out = Ok tt
                   /\ data (coordinator (snd out)) = data (coordinator w)
                   /\ executions (coordinator (snd out)) = executions (coordinator w)
                   /\ CallAsyncRefresh ∉ drop (length (awaited w)) (awaited (snd out))).
Proof.
  intros out. subst out.
  pose proof (async_execute_command_cases self command_name args w) as H.
  cbv zeta in H.
  destruct (data (coordinator w) !! device_url self) as [d|].
  - destruct (execute_command _ _ _ _) as [[exec_id|e] c'].
    + rewrite H. simpl. split; [|by left].
      eexists. split; [reflexivity|]. right. exists (Device.deviceurl d).
      by right.
    + rewrite H. simpl. split.
      * eexists. split; [reflexivity|]. right. exists (Device.deviceurl d).
        by left.
      * right. exists e. split_and!; try done.
        rewrite drop_app_length. by intros ?%list_elem_of_singleton.
  - rewrite H. simpl. split.
    + exists []. split; [by rewrite app_nil_r|by left].
    + right. eexists. split_and!; try done.
      rewrite drop_all. apply not_elem_of_nil.
Qed.

(** With a refresh that keeps the tracking table, an accepted command
    leaves its entry under the returned id, replacing whatever was
    recorded there, and leaves every other entry as it was. *)
Theorem async_execute_command_tracking_table
    self (command_name : string) (args : list PyVal) w d
    (exec_id : string) (c' : Client) :
  (forall co, executions (snd (async_refresh co)) = executions co) ->
  data (coordinator w) !! device_url self = Some d ->
  execute_command (Device.deviceurl d) (Command.Build command_name args)
    "Home Assistant" (client (coordinator w)) = (Ok exec_id, c') ->
  let out := async_execute_command self command_name args w in
  executions (coordinator (snd out)) !! exec_id =
    Some {| exec_deviceurl := Device.deviceurl d;
            exec_command_name := command_name |}
  /\ forall other, other <> exec_id ->
       executions (coordinator (snd out)) !! other =
         executions (coordinator w) !! other.
Proof.
  intros Hkeep Hd Hexec out. subst out.
  pose proof (async_execute_command_cases self command_name args w) as H.
  cbv zeta in H. rewrite Hd, Hexec in H. rewrite H. simpl.
  rewrite Hkeep. simpl. split.
  - apply lookup_insert_eq.
  - intros other Hne. by apply lookup_insert_ne.
Qed.
End Execution.


(** ** The further properties at the sample worlds *)

Lemma select_command_sound_witness :
  "close" ∈ ["toggle"; "close"; "open"]
  /\ "close" ∈ Definition_.commands
                 (Device.definition (Sample.device_at Sample.url None)).
Proof.
  refine (proj1 (select_command_sound Sample.entity Sample.world_bare
                   (Sample.device_at Sample.url None)
                   ["toggle"; "close"; "open"] _) "close" _).
  - vm_compute. reflexivity.
  - vm_compute. reflexivity.
Defined.

Lemma has_command_iff_supported_witness :
  has_command Sample.entity ["toggle"; "close"] Sample.world_bare = Ok true.
Proof.
  destruct (has_command_iff_supported Sample.entity Sample.world_bare
              (Sample.device_at Sample.url None) ["toggle"; "close"])
    as (b & Hb & Hiff).
  - vm_compute. reflexivity.
  - rewrite Hb. f_equal. apply Hiff. exists "close". split.
    + apply list_elem_of_In. simpl. auto.
    + apply elem_of_union_r. by apply elem_of_singleton.
Defined.

Lemma select_state_candidates_as_set_witness :
  select_state Sample.entity ["core:A"; "core:B"] Sample.world_BA =
    select_state Sample.entity ["core:B"; "core:A"; "core:B"] Sample.world_BA.
Proof.
  apply (select_state_candidates_as_set Sample.entity Sample.world_BA
           ["core:A"; "core:B"] ["core:B"; "core:A"; "core:B"]).
  intros n. rewrite !elem_of_cons, !elem_of_nil. tauto.
Defined.

Lemma has_state_iff_first_match_valued_witness :
  has_state Sample.entity ["core:A"; "core:B"] Sample.world_BA = Ok true.
Proof.
  apply (has_state_iff_first_match_valued Sample.entity Sample.world_BA
           (Sample.device_at Sample.url (Some Sample.states_BA))
           ["core:A"; "core:B"]).
  - vm_compute. reflexivity.
  - exists [], (State.Build "core:B" (VStr "b")), [State.Build "core:A" (VStr "a")].
    split_and!; [reflexivity| | |discriminate].
    + apply list_elem_of_In. simpl. auto.
    + intros x Hx. by apply elem_of_nil in Hx.
Defined.

Lemma assumed_state_selects_nothing_witness :
  select_state Sample.entity ["core:ClosureState"] Sample.world_bare = Ok VNone
  /\ has_state Sample.entity ["core:ClosureState"] Sample.world_bare = Ok false.
Proof.
  apply (assumed_state_selects_nothing Sample.entity Sample.world_bare).
  vm_compute. reflexivity.
Defined.

Lemma device_state_attributes_keys_witness :
  exists attr : gmap string PyVal,
    device_state_attributes Sample.entity Sample.world_rssi = Ok attr
    /\ "core:ClosureState" ∈ dom attr
    /\ ATTR_RSSI_LEVEL ∈ dom attr
    /\ "io:PriorityLockTimer" ∉ dom attr.
Proof.
  destruct (device_state_attributes_keys Sample.entity Sample.world_rssi
              (Sample.device_at Sample.url (Some Sample.states_rssi)))
    as (attr & Hattr & Hkeys).
  - vm_compute. reflexivity.
  - exists attr. split; [exact Hattr|]. rewrite !Hkeys. split_and!.
    + do 3 right. exists (State.Build "core:ClosureState" (VInt 50)).
      split_and!; [|reflexivity|reflexivity].
      apply list_elem_of_In. simpl. auto.
    + right. left. split; [reflexivity|]. vm_compute. reflexivity.
    + intros [H|[[H _]|[(a & Ha & Hn)|(s & _ & _ & Hc)]]].
      * apply list_elem_of_In in H. simpl in H.
        destruct H as [H|[H|[H|[]]]]; discriminate H.
      * discriminate H.
      * apply list_elem_of_In in Ha. simpl in Ha.
        destruct Ha as [<-|[]]. discriminate Hn.
      * vm_compute in Hc. discriminate Hc.
Defined.

Lemma device_state_attributes_fields_kept_witness :
  exists attr : gmap string PyVal,
    device_state_attributes Sample.entity Sample.world_rssi = Ok attr
    /\ attr !! "ui_class" = Some (VStr "Shutter")
    /\ attr !! ATTR_RSSI_LEVEL = Some (VInt 72).
Proof.
  destruct (device_state_attributes_fields_kept Sample.entity Sample.world_rssi
              (Sample.device_at Sample.url (Some Sample.states_rssi)))
    as (attr & Hattr & Hui & _ & _ & Hrssi).
  - vm_compute. reflexivity.
  - assert (Hno : forall k, k <> "manufacturer" ->
                    forall a, a ∈ default [] (Device.attributes
                                  (Sample.device_at Sample.url
                                     (Some Sample.states_rssi))) ->
                              State.name a <> k).
    { intros k Hk a Ha Hn. apply list_elem_of_In in Ha. simpl in Ha.
      destruct Ha as [<-|[]]. by apply Hk. }
    exists attr. split_and!; [exact Hattr| |].
    + apply Hui. by apply Hno.
    + destruct Hrssi as [-> _]; [by apply Hno|]. vm_compute. reflexivity.
Defined.

Lemma device_info_defaults_witness :
  exists info,
    device_info "tahoma" Sample.entity Sample.world_maker = Ok info
    /\ info_manufacturer info = VStr "Somfy"
    /\ info_model info = VStr "Oximo".
Proof.
  destruct (device_info "tahoma" Sample.entity Sample.world_maker)
    as [info|e] eqn:Hinfo; [|vm_compute in Hinfo; discriminate Hinfo].
  exists info. split; [reflexivity|].
  destruct (device_info_defaults "tahoma" Sample.entity Sample.world_maker
              (Sample.device_at Sample.url (Some Sample.states_maker)) info)
    as (_ & _ & _ & Hman & Hmod).
  - vm_compute. reflexivity.
  - exact Hinfo.
  - split.
    + apply (Hman [] (State.Build "core:ManufacturerNameState" (VStr ""))
               [State.Build "core:ModelState" (VStr "Oximo")]);
        [reflexivity|reflexivity|].
      intros x Hx. by apply elem_of_nil in Hx.
    + apply (Hmod [State.Build "core:ManufacturerNameState" (VStr "")]
               (State.Build "core:ModelState" (VStr "Oximo")) []);
        [reflexivity|reflexivity|].
      intros x ->%list_elem_of_singleton. discriminate.
Defined.

Lemma device_info_name_from_registry_witness :
  exists info,
    device_info "tahoma" {| device_url := Sample.sibling_url |}
      Sample.world_siblings = Ok info
    /\ info_name info = Some "Bedroom thermostat".
Proof.
  assert (Hd : data (coordinator Sample.world_siblings) !! Sample.sibling_url =
                 Some (Sample.device_at Sample.sibling_url None))
    by (vm_compute; reflexivity).
  assert (Hreg : hass_data (hass Sample.world_siblings) !! "entity_registry" =
                   Some Sample.registry)
    by (vm_compute; reflexivity).
  refine (proj1 (device_info_name_from_registry "tahoma"
                   {| device_url := Sample.sibling_url |} Sample.world_siblings
                   (Sample.device_at Sample.sibling_url None) Sample.registry
                   Hd eq_refl eq_refl Hreg)
            [] ("cover.bedroom",
                RegistryEntry.Build Sample.sub_url (Some "Bedroom thermostat"))
            [] eq_refl eq_refl _).
  intros x Hx. by apply elem_of_nil in Hx.
Defined.

Lemma device_info_siblings_share_group_witness :
  exists info1 info2,
    device_info "tahoma" {| device_url := Sample.sub_url |}
      Sample.world_siblings = Ok info1
    /\ device_info "tahoma" {| device_url := Sample.sibling_url |}
         Sample.world_siblings = Ok info2
    /\ identifiers info1 = {[ ("tahoma", Sample.url) ]}
    /\ identifiers info2 = {[ ("tahoma", Sample.url) ]}
    /\ info_name info2 = info_name info1.
Proof.
  apply (device_info_siblings_share_group "tahoma"
           {| device_url := Sample.sub_url |}
           {| device_url := Sample.sibling_url |} Sample.world_siblings
           (Sample.device_at Sample.sub_url None)
           (Sample.device_at Sample.sibling_url None)
           Sample.url "1" "2" Sample.registry);
    vm_compute; reflexivity.
Defined.

Lemma device_info_registry_missing_witness :
  device_info "tahoma" {| device_url := Sample.sub_url |}
    (Sample.bare_world_of (Sample.device_at Sample.sub_url None)) =
    Raise (KeyError "entity_registry").
Proof.
  apply (device_info_registry_missing "tahoma" {| device_url := Sample.sub_url |}
           (Sample.bare_world_of (Sample.device_at Sample.sub_url None))
           (Sample.device_at Sample.sub_url None));
    vm_compute; reflexivity.
Defined.

Lemma device_info_device_missing_witness :
  device_info "tahoma" {| device_url := Sample.sub_url |} Sample.empty_world =
    Raise (KeyError Sample.sub_url).
Proof.
  apply (device_info_device_missing "tahoma" {| device_url := Sample.sub_url |}
           Sample.empty_world).
  vm_compute. reflexivity.
Defined.

Lemma device_info_snapshot_url_without_separator_witness :
  device_info "tahoma" {| device_url := Sample.sub_url |} Sample.world_mismatch =
    Raise (ValueError "not enough values to unpack (expected 2, got 1)").
Proof.
  apply (device_info_snapshot_url_without_separator "tahoma"
           {| device_url := Sample.sub_url |} Sample.world_mismatch
           (Sample.device_at Sample.url None));
    vm_compute; reflexivity.
Defined.

Lemma async_execute_command_refresh_failure_witness :
  let out := async_execute_command (hub := Sample.accepting)
               (scheduler := Sample.failing) Sample.entity "close" []
               Sample.world_bare in
  fst out = Raise (ClientError "refresh failed") /\ _LOGGER (snd out) = [].
Proof.
  destruct (async_execute_command_refresh_failure
              (hub := Sample.accepting) (scheduler := Sample.failing)
              Sample.entity "close" [] Sample.world_bare
              (Sample.device_at Sample.url None) "E1" 1
              (ClientError "refresh failed")
              {| data := data (coordinator Sample.world_bare);
                 executions :=
                   <["E1" := {| exec_deviceurl := Sample.url;
                                exec_command_name := "close" |}]>
                     (executions (coordinator Sample.world_bare));
                 client := 1 |})
    as (Hraise & _ & Hlog).
  - vm_compute. reflexivity.
  - reflexivity.
  - reflexivity.
  - split; [exact Hraise|exact Hlog].
Defined.

Lemma async_execute_command_tracking_table_witness :
  let out := async_execute_command (hub := Sample.accepting)
               (scheduler := Sample.idle) Sample.entity "close" []
               Sample.world_tracking in
  executions (coordinator (snd out)) !! "E1" =
    Some {| exec_deviceurl := Sample.url; exec_command_name := "close" |}
  /\ executions (coordinator (snd out)) !! "E0" =
       Some {| exec_deviceurl := Sample.sub_url; exec_command_name := "open" |}.
Proof.
  destruct (async_execute_command_tracking_table
              (hub := Sample.accepting) (scheduler := Sample.idle)
              Sample.entity "close" [] Sample.world_tracking
              (Sample.device_at Sample.url None) "E1" 1)
    as [Hnew Hother].
  - intros co. reflexivity.
  - vm_compute. reflexivity.
  - reflexivity.
  - split; [exact Hnew|]. rewrite Hother; [|discriminate].
    vm_compute. reflexivity.
Defined.

Lemma async_execute_command_calls_and_log_witness :
  let out := async_execute_command (hub := Sample.rejecting)
               (scheduler := Sample.idle) Sample.entity "close" []
               Sample.world_bare in
  exists calls,
    awaited (snd out) = awaited Sample.world_bare ++ calls
    /\ (calls = []
        \/ exists url,
             let submit :=
               CallExecuteCommand url (Command.Build "close" []) "Home Assistant" in
             calls = [submit] \/ calls = [submit; CallAsyncRefresh]).
Proof.
  exact (proj1 (async_execute_command_calls_and_log
                  (hub := Sample.rejecting) (scheduler := Sample.idle)
                  Sample.entity "close" [] Sample.world_bare)).
Defined.
